(** * Krok Nodes backend (backend2): persistence layer and start-up bootstrap

    A shallow embedding of the Flow repository ([app/crud/flow.py]), the
    Flow endpoints ([app/api/endpoints/flows.py]) and the two bootstrap
    routines ([main.lifespan], [init_db.init_database]).

    The relational store behind the SQLAlchemy session is modelled as two
    tables, each the list of its rows in rowid order.  A session method
    that ends in [db.commit()] is a function from the store to the store
    after the commit; a commit that the store rejects leaves the store as it
    was at the previous commit and raises [IntegrityError]. *)

From Stdlib Require Import ZArith NArith List String Ascii Bool Lia.
Import ListNotations.

Local Open Scope string_scope.
Local Open Scope list_scope.
Local Open Scope Z_scope.

(** ** Python values *)

(** [func.now()]: the store's clock, read when a statement runs. *)
Definition datetime := Z.

Inductive exn : Type :=
| IntegrityError (constraint : string)
| HTTPException (status_code : Z) (detail : string).

Inductive result (A : Type) : Type :=
| Ok (a : A)
| Raise (e : exn).
Arguments Ok {A} a.
Arguments Raise {A} e.

(** A field of a pydantic model built from a request: either never given
    ([unset], what [dict(exclude_unset=True)] drops) or given a value. *)
Inductive field (A : Type) : Type :=
| unset
| given (v : A).
Arguments unset {A}.
Arguments given {A} v.

(** A keyword parameter with a default: [None] is the argument left out. *)
Definition kwarg {A : Type} (dflt : A) (arg : option A) : A :=
  match arg with
  | Some v => v
  | None => dflt
  end.

Definition option_eqb {A : Type} (eqb : A -> A -> bool) (x y : option A) : bool :=
  match x, y with
  | Some a, Some b => eqb a b
  | None, None => true
  | _, _ => false
  end.

(** ** uuid.uuid4().hex *)

Module uuid.

Definition hexdigit (d : N) : ascii :=
  match d with
  | 0 => "0" | 1 => "1" | 2 => "2" | 3 => "3"
  | 4 => "4" | 5 => "5" | 6 => "6" | 7 => "7"
  | 8 => "8" | 9 => "9" | 10 => "a" | 11 => "b"
  | 12 => "c" | 13 => "d" | 14 => "e" | _ => "f"
  end%N%char.

(** ['%0<width>x' % n], most significant digit first. *)
Fixpoint hex_digits (width : nat) (n : N) : string :=
  match width with
  | O => EmptyString
  | S w => hex_digits w (n / 16) ++ String (hexdigit (n mod 16)) EmptyString
  end.

(** [UUID.hex] is ['%032x' % self.int]; a UUID is its 128-bit integer. *)
Definition hex (u : N) : string := hex_digits 32 u.

(** [f"flow_{uuid.uuid4().hex[:8]}"] for the value [uuid4] that
    [uuid.uuid4()] returns. *)
Definition new_flow_id (uuid4 : N) : string :=
  "flow_" ++ substring 0 8 (hex uuid4).

Definition is_hexdigit (c : ascii) : bool :=
  existsb (Ascii.eqb c) (list_ascii_of_string "0123456789abcdef").

End uuid.

(** ** app/models *)

Module Flow.

Record t : Type := mk {
  id : Z;
  flow_id : string;
  name : string;
  description : option string;
  user_id : Z;
  created_at : datetime;
  updated_at : option datetime
}.

Definition eqb (a b : t) : bool :=
  (id a =? id b) && String.eqb (flow_id a) (flow_id b)
  && String.eqb (name a) (name b)
  && option_eqb String.eqb (description a) (description b)
  && (user_id a =? user_id b) && (created_at a =? created_at b)
  && option_eqb Z.eqb (updated_at a) (updated_at b).

Definition set_name (v : string) (f : t) : t :=
  mk (id f) (flow_id f) v (description f) (user_id f) (created_at f) (updated_at f).

Definition set_description (v : option string) (f : t) : t :=
  mk (id f) (flow_id f) (name f) v (user_id f) (created_at f) (updated_at f).

Definition set_updated_at (v : option datetime) (f : t) : t :=
  mk (id f) (flow_id f) (name f) (description f) (user_id f) (created_at f) v.

End Flow.

Module User.

(** Modelled from the spec: [app/models/user.py] is not among the
    sources.  The columns are those of the spec's data model and of the
    response schema [app/schemas/user.py]: a surrogate [id], a unique
    required [username], an optional [email], a boolean [is_active], and
    the two timestamps with the same semantics as a Flow's. *)
Record t : Type := mk {
  id : Z;
  username : string;
  email : option string;
  is_active : bool;
  created_at : datetime;
  updated_at : option datetime
}.

Definition eqb (a b : t) : bool :=
  (id a =? id b) && String.eqb (username a) (username b)
  && option_eqb String.eqb (email a) (email b)
  && Bool.eqb (is_active a) (is_active b)
  && (created_at a =? created_at b)
  && option_eqb Z.eqb (updated_at a) (updated_at b).

Definition set_username (v : string) (u : t) : t :=
  mk (id u) v (email u) (is_active u) (created_at u) (updated_at u).

Definition set_email (v : option string) (u : t) : t :=
  mk (id u) (username u) v (is_active u) (created_at u) (updated_at u).

Definition set_is_active (v : bool) (u : t) : t :=
  mk (id u) (username u) (email u) v (created_at u) (updated_at u).

Definition set_updated_at (v : option datetime) (u : t) : t :=
  mk (id u) (username u) (email u) (is_active u) (created_at u) v.

End User.

(** ** app/schemas *)

Module UserCreate.
Record t : Type := mk {
  username : string;
  email : option string;
  is_active : bool
}.
End UserCreate.

Module UserUpdate.
(** Every field is [Optional[...] = None]: it can be left out, or given
    as a value or as an explicit null. *)
Record t : Type := mk {
  username : field (option string);
  email : field (option string);
  is_active : field (option bool)
}.
End UserUpdate.

Module FlowCreate.
Record t : Type := mk {
  flow_id : string;
  name : string;
  description : option string;
  user_id : Z
}.
End FlowCreate.

Module FlowUpdate.
(** Modelled from the spec: [app/schemas/flow.py] is not among the
    sources.  The partial-update payload of a Flow carries its two
    descriptive fields, each either left out or given: [name] is
    required of a Flow, so a given name is a string; [description] is
    optional, so a given description may be null. *)
Record t : Type := mk {
  name : field string;
  description : field (option string)
}.
End FlowUpdate.

(** ** The store behind a SQLAlchemy session *)

Section Table.

Context {R : Type} (pk : R -> Z).

(** The rowid SQLite gives a row inserted without one. *)
Definition next_pk (rows : list R) : Z :=
  1 + fold_right Z.max 0 (map pk rows).

(** [UPDATE ... WHERE id = pk r] *)
Definition replace_row (r : R) (rows : list R) : list R :=
  map (fun x => if pk x =? pk r then r else x) rows.

(** [DELETE ... WHERE id = pk r] *)
Definition delete_row (r : R) (rows : list R) : list R :=
  filter (fun x => negb (pk x =? pk r)) rows.

End Table.

(** [.offset(n)] and [.limit(n)] as SQLite runs them: a negative offset
    skips nothing and a negative limit is no limit. *)
Definition sql_offset {R : Type} (n : Z) (rows : list R) : list R :=
  skipn (Z.to_nat n) rows.

Definition sql_limit {R : Type} (n : Z) (rows : list R) : list R :=
  if n <? 0 then rows else firstn (Z.to_nat n) rows.

(** [foreign_keys] is the connection's [PRAGMA foreign_keys]
    ([app/core/database.py] is not among the sources, so both settings are
    kept). *)
Record Session : Type := mkSession {
  users : list User.t;
  flows : list Flow.t;
  foreign_keys : bool
}.

Definition with_users (db : Session) (rows : list User.t) : Session :=
  mkSession rows (flows db) (foreign_keys db).

Definition with_flows (db : Session) (rows : list Flow.t) : Session :=
  mkSession (users db) rows (foreign_keys db).

(** [db.add(Flow(flow_id=.., name=.., description=.., user_id=..));
    db.commit(); db.refresh(..)].  The INSERT leaves [id] and [created_at]
    to the store ([primary_key], [server_default=func.now()]) and gives
    [updated_at] no value; [flow_id] is [unique=True]. *)
Definition add_flow (db : Session) (flow_id name : string)
    (description : option string) (user_id : Z) (now : datetime)
    : Session * result Flow.t :=
  if existsb (fun f => String.eqb (Flow.flow_id f) flow_id) (flows db) then
    (db, Raise (IntegrityError "UNIQUE constraint failed: flows.flow_id"))
  else if foreign_keys db
          && negb (existsb (fun u => User.id u =? user_id) (users db)) then
    (db, Raise (IntegrityError "FOREIGN KEY constraint failed"))
  else
    let row := Flow.mk (next_pk Flow.id (flows db)) flow_id name description
                       user_id now None in
    (with_flows db (flows db ++ [row]), Ok row).

(** The same for [User(username=.., email=.., is_active=..)]; [username]
    is unique (spec, data model). *)
Definition add_user (db : Session) (username : string) (email : option string)
    (is_active : bool) (now : datetime) : Session * result User.t :=
  if existsb (fun u => String.eqb (User.username u) username) (users db) then
    (db, Raise (IntegrityError "UNIQUE constraint failed: users.username"))
  else
    let row := User.mk (next_pk User.id (users db)) username email is_active
                       now None in
    (with_users db (users db ++ [row]), Ok row).

(** [db.commit(); db.refresh(obj)] for a persistent Flow whose attributes
    were assigned: the unit of work emits an UPDATE only when an attribute
    differs from its loaded value, and [onupdate=func.now()] fills
    [updated_at] in that UPDATE. *)
Definition commit_flow (db : Session) (loaded current : Flow.t)
    (now : datetime) : Session * Flow.t :=
  if Flow.eqb loaded current then (db, loaded)
  else
    let row := Flow.set_updated_at (Some now) current in
    (with_flows db (replace_row Flow.id row (flows db)), row).

(** The same for a persistent User; the UPDATE fails when it would give a
    second row the same [username]. *)
Definition commit_user (db : Session) (loaded current : User.t)
    (now : datetime) : Session * result User.t :=
  if User.eqb loaded current then (db, Ok loaded)
  else if negb (String.eqb (User.username loaded) (User.username current))
          && existsb (fun u => String.eqb (User.username u) (User.username current))
                     (users db) then
    (db, Raise (IntegrityError "UNIQUE constraint failed: users.username"))
  else
    let row := User.set_updated_at (Some now) current in
    (with_users db (replace_row User.id row (users db)), Ok row).

(** ** app/crud/flow.py *)

Module flow_crud.

Definition get_flow (db : Session) (flow_id : string) : option Flow.t :=
  find (fun f => String.eqb (Flow.flow_id f) flow_id) (flows db).

Definition get_all_flows (db : Session) (skip limit : option Z)
    : list Flow.t :=
  let skip := kwarg 0 skip in
  let limit := kwarg 100 limit in
  sql_limit limit (sql_offset skip (flows db)).

Definition get_flows_by_user (db : Session) (user_id : Z)
    (skip limit : option Z) : list Flow.t :=
  let skip := kwarg 0 skip in
  let limit := kwarg 100 limit in
  sql_limit limit
    (sql_offset skip (filter (fun f => Flow.user_id f =? user_id) (flows db))).

Definition create_flow (db : Session) (flow : FlowCreate.t) (now : datetime)
    : Session * result Flow.t :=
  add_flow db (FlowCreate.flow_id flow) (FlowCreate.name flow)
           (FlowCreate.description flow) (FlowCreate.user_id flow) now.

(** An item of [flow_update.dict(exclude_unset=True)]. *)
Inductive item : Type :=
| item_name (value : string)
| item_description (value : option string).

Definition dict_exclude_unset (flow_update : FlowUpdate.t) : list item :=
  match FlowUpdate.name flow_update with
  | given v => [item_name v]
  | unset => []
  end
  ++ match FlowUpdate.description flow_update with
     | given v => [item_description v]
     | unset => []
     end.

Definition setattr (db_flow : Flow.t) (kv : item) : Flow.t :=
  match kv with
  | item_name value => Flow.set_name value db_flow
  | item_description value => Flow.set_description value db_flow
  end.

Definition update_flow (db : Session) (flow_id : string)
    (flow_update : FlowUpdate.t) (now : datetime)
    : Session * option Flow.t :=
  match get_flow db flow_id with
  | Some db_flow =>
      let update_data := dict_exclude_unset flow_update in
      let assigned := fold_left setattr update_data db_flow in
      let (db', refreshed) := commit_flow db db_flow assigned now in
      (db', Some refreshed)
  | None => (db, None)
  end.

Definition delete_flow (db : Session) (flow_id : string) : Session * bool :=
  match get_flow db flow_id with
  | Some db_flow =>
      (with_flows db (delete_row Flow.id db_flow (flows db)), true)
  | None => (db, false)
  end.

(** [uuid4] is the value [uuid.uuid4()] returns in this call. *)
Definition create_default_flow_for_user (db : Session) (user_id : Z)
    (uuid4 : N) (now : datetime) : Session * result Flow.t :=
  let flow_id := uuid.new_flow_id uuid4 in
  let default_flow :=
    FlowCreate.mk flow_id "Мой первый поток"
                  (Some "Автоматически созданный поток") user_id in
  create_flow db default_flow now.

End flow_crud.

(** ** app/crud/user.py *)

Module user_crud.

(** Modelled from the spec: [app/crud/user.py] is not among the sources.
    [get_user(id)] returns the User or absent, without side effects. *)
Definition get_user (db : Session) (user_id : Z) : option User.t :=
  find (fun u => User.id u =? user_id) (users db).

(** Modelled from the spec: [get_user_by_username(username)] returns the
    User or absent. *)
Definition get_user_by_username (db : Session) (username : string)
    : option User.t :=
  find (fun u => String.eqb (User.username u) username) (users db).

(** Modelled from the spec: [create_user(data)] gives a new User with a
    fresh id and [created_at]; the uniqueness of [username] is checked by
    its caller and guarded by the store. *)
Definition create_user (db : Session) (user : UserCreate.t) (now : datetime)
    : Session * result User.t :=
  add_user db (UserCreate.username user) (UserCreate.email user)
           (UserCreate.is_active user) now.

Inductive item : Type :=
| item_username (value : option string)
| item_email (value : option string)
| item_is_active (value : option bool).

Definition dict_exclude_unset (user_update : UserUpdate.t) : list item :=
  match UserUpdate.username user_update with
  | given v => [item_username v]
  | unset => []
  end
  ++ match UserUpdate.email user_update with
     | given v => [item_email v]
     | unset => []
     end
  ++ match UserUpdate.is_active user_update with
     | given v => [item_is_active v]
     | unset => []
     end.

(** [None] is an object holding a null in a column that takes none
    ([username], [is_active]); its commit fails. *)
Definition setattr (db_user : option User.t) (kv : item) : option User.t :=
  match db_user, kv with
  | Some u, item_username (Some value) => Some (User.set_username value u)
  | Some u, item_email value => Some (User.set_email value u)
  | Some u, item_is_active (Some value) => Some (User.set_is_active value u)
  | _, _ => None
  end.

(** Modelled from the spec: [update_user(id, partial_data)] has the
    partial-update semantics of [flow_crud.update_flow]: it assigns the
    fields present in the payload, commits, and returns the refreshed
    User, or absent when the id does not exist. *)
Definition update_user (db : Session) (user_id : Z)
    (user_update : UserUpdate.t) (now : datetime)
    : Session * result (option User.t) :=
  match get_user db user_id with
  | Some db_user =>
      let update_data := dict_exclude_unset user_update in
      match fold_left setattr update_data (Some db_user) with
      | Some assigned =>
          match commit_user db db_user assigned now with
          | (db', Ok refreshed) => (db', Ok (Some refreshed))
          | (db', Raise e) => (db', Raise e)
          end
      | None => (db, Raise (IntegrityError "NOT NULL constraint failed"))
      end
  | None => (db, Ok None)
  end.

End user_crud.

(** ** app/api/endpoints/flows.py *)

Module flows_api.

(** [if user_id:] on an [int] that defaults to [None]. *)
Definition truthy (user_id : option Z) : bool :=
  match user_id with
  | Some n => negb (n =? 0)
  | None => false
  end.

Definition get_flows (db : Session) (user_id skip limit : option Z)
    : list Flow.t :=
  let skip := kwarg 0 skip in
  let limit := kwarg 100 limit in
  match user_id with
  | Some uid =>
      if truthy user_id then
        flow_crud.get_flows_by_user db uid (Some skip) (Some limit)
      else flow_crud.get_all_flows db (Some skip) (Some limit)
  | None => flow_crud.get_all_flows db (Some skip) (Some limit)
  end.

Definition get_flow (db : Session) (flow_id : string) : result Flow.t :=
  match flow_crud.get_flow db flow_id with
  | None => Raise (HTTPException 404 "Поток не найден")
  | Some db_flow => Ok db_flow
  end.

Definition create_flow (db : Session) (flow : FlowCreate.t) (now : datetime)
    : Session * result Flow.t :=
  match flow_crud.get_flow db (FlowCreate.flow_id flow) with
  | Some _ =>
      (db, Raise (HTTPException 400 "Поток с таким ID уже существует"))
  | None => flow_crud.create_flow db flow now
  end.

Definition update_flow (db : Session) (flow_id : string)
    (flow : FlowUpdate.t) (now : datetime) : Session * result Flow.t :=
  match flow_crud.update_flow db flow_id flow now with
  | (db', None) => (db', Raise (HTTPException 404 "Поток не найден"))
  | (db', Some db_flow) => (db', Ok db_flow)
  end.

Definition delete_flow (db : Session) (flow_id : string)
    : Session * result string :=
  match flow_crud.delete_flow db flow_id with
  | (db', false) => (db', Raise (HTTPException 404 "Поток не найден"))
  | (db', true) => (db', Ok "Поток успешно удален")
  end.

Definition create_default_flow_for_user (db : Session) (user_id : Z)
    (uuid4 : N) (now : datetime) : Session * result Flow.t :=
  match user_crud.get_user db user_id with
  | None => (db, Raise (HTTPException 404 "Пользователь не найден"))
  | Some _ => flow_crud.create_default_flow_for_user db user_id uuid4 now
  end.

End flows_api.

(** ** main.py and init_db.py: the bootstrap

    Both routines take the value [uuid4] that [uuid.uuid4()] returns in the
    run, and the store's clock at the first ([now]) and at the second
    ([later]) commit of the run.  Each swallows an exception ([except
    Exception]), so a run ends with the store as of its last commit. *)

Module main.

Definition lifespan (db : Session) (uuid4 : N) (now later : datetime)
    : Session :=
  match find (fun u => String.eqb (User.username u) "root") (users db) with
  | None =>
      let root_user_data :=
        UserCreate.mk "root" (Some "root@krok-mvp.local") true in
      match user_crud.create_user db root_user_data now with
      | (db1, Ok root_user) =>
          let flow_id := uuid.new_flow_id uuid4 in
          let default_flow_data :=
            FlowCreate.mk flow_id "Тестовый поток"
              (Some "Автоматически созданный поток для тестирования")
              (User.id root_user) in
          match flow_crud.create_flow db1 default_flow_data later with
          | (db2, Ok default_flow) => db2
          | (db2, Raise e) => db2
          end
      | (db1, Raise e) => db1
      end
  | Some root_user => db
  end.

End main.

Module init_db.

Definition init_database (db : Session) (uuid4 : N) (now later : datetime)
    : Session :=
  match find (fun u => String.eqb (User.username u) "root") (users db) with
  | None =>
      let root_user_data :=
        UserCreate.mk "root" (Some "root@krok-mvp.local") true in
      match add_user db (UserCreate.username root_user_data)
                     (UserCreate.email root_user_data)
                     (UserCreate.is_active root_user_data) now with
      | (db1, Ok root_user) =>
          let flow_id := uuid.new_flow_id uuid4 in
          match add_flow db1 flow_id "Тестовый поток"
                  (Some "Автоматически созданный поток для тестирования")
                  (User.id root_user) later with
          | (db2, Ok default_flow) => db2
          | (db2, Raise e) => db2
          end
      | (db1, Raise e) => db1
      end
  | Some root_user =>
      let root_flows :=
        filter (fun f => Flow.user_id f =? User.id root_user) (flows db) in
      match root_flows with
      | [] =>
          let flow_id := uuid.new_flow_id uuid4 in
          match add_flow db flow_id "Тестовый поток"
                  (Some "Автоматически созданный поток для тестирования")
                  (User.id root_user) now with
          | (db1, Ok default_flow) => db1
          | (db1, Raise e) => db1
          end
      | _ :: _ => db
      end
  end.

End init_db.

(** ** Vocabulary of the statements *)

(** The store's integrity constraints: primary keys, [flows.flow_id] and
    [users.username] are unique. *)
Record integrity (db : Session) : Prop := {
  flow_pk_unique : NoDup (map Flow.id (flows db));
  flow_id_unique : NoDup (map Flow.flow_id (flows db));
  user_pk_unique : NoDup (map User.id (users db));
  username_unique : NoDup (map User.username (users db))
}.

Definition is_root (u : User.t) : bool := String.eqb (User.username u) "root".

(** The Users named "root", and the Flows a User owns. *)
Definition root_users (db : Session) : list User.t := filter is_root (users db).

Definition flows_of (db : Session) (user_id : Z) : list Flow.t :=
  filter (fun f => Flow.user_id f =? user_id) (flows db).

(** No Flow of the store has this [flow_id]. *)
Definition unused (db : Session) (flow_id : string) : Prop :=
  flow_crud.get_flow db flow_id = None.

Definition empty_store (fk : bool) : Session := mkSession [] [] fk.

(** A partial-update payload changes a stored Flow when a field it gives
    differs from the stored value. *)
Definition changes (flow_update : FlowUpdate.t) (f : Flow.t) : bool :=
  match FlowUpdate.name flow_update with
  | given v => negb (String.eqb v (Flow.name f))
  | unset => false
  end
  || match FlowUpdate.description flow_update with
     | given v => negb (option_eqb String.eqb v (Flow.description f))
     | unset => false
     end.

(** The same for a User; a payload with a null for [username] or
    [is_active] is refused by the store and changes nothing. *)
Definition user_changes (user_update : UserUpdate.t) (u : User.t) : bool :=
  match UserUpdate.username user_update with
  | given (Some v) => negb (String.eqb v (User.username u))
  | _ => false
  end
  || match UserUpdate.email user_update with
     | given v => negb (option_eqb String.eqb v (User.email u))
     | unset => false
     end
  || match UserUpdate.is_active user_update with
     | given (Some v) => negb (Bool.eqb v (User.is_active u))
     | _ => false
     end.

Definition user_nulls (user_update : UserUpdate.t) : bool :=
  match UserUpdate.username user_update with
  | given None => true
  | _ => false
  end
  || match UserUpdate.is_active user_update with
     | given None => true
     | _ => false
     end.

(** Histories of repository calls, each with the store's clock at its
    commit. *)
Inductive call : Type :=
| call_create_flow (flow : FlowCreate.t)
| call_create_default_flow_for_user (user_id : Z) (uuid4 : N)
| call_update_flow (flow_id : string) (flow_update : FlowUpdate.t)
| call_delete_flow (flow_id : string)
| call_create_user (user : UserCreate.t)
| call_update_user (user_id : Z) (user_update : UserUpdate.t).

Definition run_call (db : Session) (c : call) (now : datetime) : Session :=
  match c with
  | call_create_flow flow => fst (flow_crud.create_flow db flow now)
  | call_create_default_flow_for_user user_id uuid4 =>
      fst (flow_crud.create_default_flow_for_user db user_id uuid4 now)
  | call_update_flow flow_id flow_update =>
      fst (flow_crud.update_flow db flow_id flow_update now)
  | call_delete_flow flow_id => fst (flow_crud.delete_flow db flow_id)
  | call_create_user user => fst (user_crud.create_user db user now)
  | call_update_user user_id user_update =>
      fst (user_crud.update_user db user_id user_update now)
  end.

Fixpoint run_calls (db : Session) (history : list (call * datetime))
    : Session :=
  match history with
  | [] => db
  | (c, now) :: rest => run_calls (run_call db c now) rest
  end.

(** A call that is neither a mutating update nor the deletion of the
    Flow [f] (of the User [u]). *)
Definition leaves_flow (f : Flow.t) (c : call) : Prop :=
  match c with
  | call_update_flow flow_id flow_update =>
      flow_id = Flow.flow_id f -> changes flow_update f = false
  | call_delete_flow flow_id => flow_id <> Flow.flow_id f
  | _ => True
  end.

Definition leaves_user (u : User.t) (c : call) : Prop :=
  match c with
  | call_update_user user_id user_update =>
      user_id = User.id u ->
      user_changes user_update u = false \/ user_nulls user_update = true
  | _ => True
  end.

(** The User the bootstrap's lookup of "root" returns. *)
Definition root_user (db : Session) : option User.t := find is_root (users db).

(** The two bootstrap routines of the repository. *)
Inductive routine : Type :=
| Lifespan
| InitDatabase.

Definition bootstrap (r : routine)
    : Session -> N -> datetime -> datetime -> Session :=
  match r with
  | Lifespan => main.lifespan
  | InitDatabase => init_db.init_database
  end.

(** Restarts: a bootstrap run per element, each with its routine, its own
    uuid and its clock readings. *)
Fixpoint run_bootstraps (db : Session)
    (runs : list (routine * N * datetime * datetime)) : Session :=
  match runs with
  | [] => db
  | (r, uuid4, now, later) :: rest =>
      run_bootstraps (bootstrap r db uuid4 now later) rest
  end.

(** A store for examples: root and another User, who owns the one Flow;
    [deadbeef_uuid] is a uuid whose hex form starts with that Flow's
    suffix. *)
Module Sample.

Definition root : User.t :=
  User.mk 1 "root" (Some "root@krok-mvp.local") true 100 None.

Definition ann : User.t := User.mk 2 "ann" None true 110 None.

Definition ann_flow : Flow.t :=
  Flow.mk 1 "flow_deadbeef" "Draft" None 2 120 None.

Definition db : Session := mkSession [root; ann] [ann_flow] true.

Definition deadbeef_uuid : N := 0xdeadbeef000040008000000000000000.

Definition cafe_uuid : N := 0x0badcafe000040008000000000000000.

(** A store of five Flows, all owned by root. *)
Definition f1 : Flow.t := Flow.mk 1 "flow_00000001" "One" None 1 121 None.
Definition f2 : Flow.t := Flow.mk 2 "flow_00000002" "Two" None 1 122 None.
Definition f3 : Flow.t := Flow.mk 3 "flow_00000003" "Three" None 1 123 None.
Definition f4 : Flow.t := Flow.mk 4 "flow_00000004" "Four" None 1 124 None.
Definition f5 : Flow.t := Flow.mk 5 "flow_00000005" "Five" None 1 125 None.

Definition five : Session := mkSession [root] [f1; f2; f3; f4; f5] true.

(** A history that leaves [ann_flow] alone: an update of it that gives
    no field, an update that gives it the name it has, a new User, and the
    deletion of a flow_id that is not in the store. *)
Definition quiet_history : list (call * datetime) :=
  [ (call_update_flow "flow_deadbeef" (FlowUpdate.mk unset unset), 500);
    (call_update_flow "flow_deadbeef" (FlowUpdate.mk (given "Draft") unset), 501);
    (call_create_user (UserCreate.mk "bob" None true), 502);
    (call_delete_flow "flow_0badcafe", 503) ].

End Sample.

(** The error kind Conflict at the Flow endpoints: the request is refused
    because the flow_id is taken. *)
Definition Conflict (e : exn) : Prop :=
  e = HTTPException 400 "Поток с таким ID уже существует".

(** Further stores for examples: one without a User "root" in which the
    flow_id of [Sample.deadbeef_uuid] is taken, and the sample store after
    root got a Flow. *)
Module Fixture.

Definition no_root : Session :=
  mkSession [Sample.ann] [Sample.ann_flow] true.

Definition root_flow : Flow.t :=
  Flow.mk 2 "flow_0badcafe" "Root" (Some "first") 1 130 None.

Definition two_flows : Session :=
  mkSession [Sample.root; Sample.ann] [Sample.ann_flow; root_flow] true.

End Fixture.

(** The calls of the Flow repository, and those of them that do not
    delete the Flow [f]. *)
Definition flow_call (c : call) : Prop :=
  match c with
  | call_create_user _ | call_update_user _ _ => False
  | _ => True
  end.

Definition keeps_flow (f : Flow.t) (c : call) : Prop :=
  flow_call c /\ c <> call_delete_flow (Flow.flow_id f).

(** * Properties *)

(** ** Rows and tables *)

Lemma option_eqb_eq {A : Type} (eqb : A -> A -> bool) :
  (forall a b, eqb a b = true <-> a = b) ->
  forall x y, option_eqb eqb x y = true <-> x = y.
Proof.
  intros H [a|] [b|]; simpl; try rewrite H;
    split; intro E; try discriminate; try congruence; trivial.
Qed.

Lemma Flow_eqb_eq (a b : Flow.t) : Flow.eqb a b = true <-> a = b.
Proof.
  unfold Flow.eqb. destruct a, b; simpl.
  rewrite !andb_true_iff, !Z.eqb_eq, !String.eqb_eq,
    (option_eqb_eq _ String.eqb_eq), (option_eqb_eq _ Z.eqb_eq).
  split; [intros [[[[[[? ?] ?] ?] ?] ?] ?]; congruence|].
  intro E; injection E; intros; subst; repeat split.
Qed.

Lemma User_eqb_eq (a b : User.t) : User.eqb a b = true <-> a = b.
Proof.
  unfold User.eqb. destruct a, b; simpl.
  rewrite !andb_true_iff, !Z.eqb_eq, !String.eqb_eq,
    (option_eqb_eq _ String.eqb_eq), (option_eqb_eq _ Z.eqb_eq).
  split.
  - intros [[[[[? ?] ?] E] ?] ?]. apply Bool.eqb_prop in E. congruence.
  - intro E; injection E; intros; subst; repeat split.
    apply Bool.eqb_reflx.
Qed.

Lemma find_none_iff {A : Type} (p : A -> bool) (l : list A) :
  find p l = None <-> existsb p l = false.
Proof.
  induction l as [|a l IH]; simpl; [tauto|].
  destruct (p a); simpl; [split; discriminate | exact IH].
Qed.

Lemma find_app_none {A : Type} (p : A -> bool) (l l' : list A) :
  find p l = None -> find p (l ++ l') = find p l'.
Proof.
  induction l as [|a l IH]; simpl; [trivial|].
  destruct (p a); [discriminate | exact IH].
Qed.


Lemma unique_key {R K : Type} (key : R -> K) (rows : list R) (a b : R) :
  NoDup (map key rows) -> In a rows -> In b rows -> key a = key b -> a = b.
Proof.
  induction rows as [|r rows IH]; simpl; [tauto|].
  intros ND Ha Hb E. inversion ND as [|? ? Hnotin ND']; subst.
  destruct Ha as [-> | Ha], Hb as [-> | Hb]; trivial.
  - exfalso. apply Hnotin. rewrite E. now apply in_map.
  - exfalso. apply Hnotin. rewrite <- E. now apply in_map.
  - now apply IH.
Qed.

Lemma nodup_map_filter {R K : Type} (key : R -> K) (p : R -> bool) (rows : list R) :
  NoDup (map key rows) -> NoDup (map key (filter p rows)).
Proof.
  induction rows as [|a rows IH]; simpl; trivial.
  intro ND. inversion ND as [|? ? Hnotin ND']; subst.
  destruct (p a); simpl; [constructor|]; auto.
  intro H. apply Hnotin. apply in_map_iff in H. destruct H as [x [E H]].
  apply filter_In in H. apply in_map_iff. exists x. tauto.
Qed.

Lemma in_skipn {A : Type} (n : nat) (l : list A) (x : A) :
  In x (skipn n l) -> In x l.
Proof.
  intro H. rewrite <- (firstn_skipn n l). apply in_or_app. now right.
Qed.

Lemma in_firstn {A : Type} (n : nat) (l : list A) (x : A) :
  In x (firstn n l) -> In x l.
Proof.
  intro H. rewrite <- (firstn_skipn n l). apply in_or_app. now left.
Qed.

Lemma in_page {A : Type} (skip limit : Z) (l : list A) (x : A) :
  In x (sql_limit limit (sql_offset skip l)) -> In x l.
Proof.
  unfold sql_limit, sql_offset. destruct (limit <? 0); intro H.
  - now apply in_skipn in H.
  - apply in_firstn in H. now apply in_skipn in H.
Qed.

Section TableFacts.

Context {R : Type} (pk : R -> Z).

Lemma pk_lt_next (rows : list R) (r : R) :
  In r rows -> pk r < next_pk pk rows.
Proof.
  unfold next_pk. induction rows as [|a rows IH]; cbn [map fold_right In];
    [tauto|].
  intros [-> | H]; [lia|]. specialize (IH H). lia.
Qed.

Lemma next_pk_fresh (rows : list R) : ~ In (next_pk pk rows) (map pk rows).
Proof.
  intro H. apply in_map_iff in H. destruct H as [r [E H]].
  apply pk_lt_next in H. lia.
Qed.

Lemma in_delete_row (r x : R) (rows : list R) :
  In x (delete_row pk r rows) <-> In x rows /\ pk x <> pk r.
Proof.
  unfold delete_row. rewrite filter_In, negb_true_iff, Z.eqb_neq. tauto.
Qed.

Lemma length_delete_row (r : R) (rows : list R) :
  NoDup (map pk rows) -> In r rows ->
  S (List.length (delete_row pk r rows)) = List.length rows.
Proof.
  unfold delete_row. induction rows as [|a rows IH]; simpl; [tauto|].
  intros ND H. inversion ND as [|? ? Hnotin ND']; subst.
  destruct H as [-> | H].
  - rewrite Z.eqb_refl. simpl. f_equal.
    clear IH ND ND'. induction rows as [|b rows IH]; simpl; trivial.
    destruct (Z.eqb_spec (pk b) (pk r)) as [E|E]; simpl.
    + exfalso. apply Hnotin. simpl. now left.
    + f_equal. apply IH. intro. apply Hnotin. simpl. now right.
  - destruct (Z.eqb_spec (pk a) (pk r)) as [E|E]; simpl.
    + exfalso. apply Hnotin. rewrite E. now apply in_map.
    + f_equal. now apply IH.
Qed.

Lemma in_replace_row (r x : R) (rows : list R) :
  In x (replace_row pk r rows) ->
  (x = r /\ exists y, In y rows /\ pk y = pk r) \/ (In x rows /\ pk x <> pk r).
Proof.
  unfold replace_row. rewrite in_map_iff. intros [y [E H]].
  destruct (Z.eqb_spec (pk y) (pk r)) as [Ey|Ey]; subst.
  - left. split; trivial. now exists y.
  - right. tauto.
Qed.

Lemma replace_row_keeps (r x : R) (rows : list R) :
  In x rows -> pk x <> pk r -> In x (replace_row pk r rows).
Proof.
  intros H Hne. unfold replace_row. apply in_map_iff. exists x.
  split; trivial. apply Z.eqb_neq in Hne. now rewrite Hne.
Qed.

Lemma replace_row_puts (r y : R) (rows : list R) :
  In y rows -> pk y = pk r -> In r (replace_row pk r rows).
Proof.
  intros H E. unfold replace_row. apply in_map_iff. exists y.
  split; trivial. apply Z.eqb_eq in E. now rewrite E.
Qed.

Lemma map_key_replace_row {K : Type} (key : R -> K) (r : R) (rows : list R) :
  (forall y, In y rows -> pk y = pk r -> key y = key r) ->
  map key (replace_row pk r rows) = map key rows.
Proof.
  unfold replace_row. intro H. rewrite map_map. apply map_ext_in.
  intros y Hy. destruct (Z.eqb_spec (pk y) (pk r)); trivial.
  symmetry. now apply H.
Qed.

Lemma length_replace_row (r : R) (rows : list R) :
  List.length (replace_row pk r rows) = List.length rows.
Proof. unfold replace_row. apply length_map. Qed.

End TableFacts.

(** ** Looking a Flow up by its flow_id *)

Lemma get_flow_some (db : Session) (flow_id : string) (f : Flow.t) :
  flow_crud.get_flow db flow_id = Some f ->
  In f (flows db) /\ Flow.flow_id f = flow_id.
Proof.
  unfold flow_crud.get_flow. intro H. apply find_some in H.
  now rewrite String.eqb_eq in H.
Qed.

Lemma get_flow_none (db : Session) (flow_id : string) :
  flow_crud.get_flow db flow_id = None <->
  forall f, In f (flows db) -> Flow.flow_id f <> flow_id.
Proof.
  unfold flow_crud.get_flow. split.
  - intros H f Hf E. apply (find_none _ _ H) in Hf.
    apply String.eqb_neq in Hf. contradiction.
  - intro H. destruct (find _ _) as [f|] eqn:E; trivial.
    apply find_some in E. rewrite String.eqb_eq in E.
    exfalso. now apply (H f).
Qed.

Lemma get_flow_stored (db : Session) (f : Flow.t) :
  NoDup (map Flow.flow_id (flows db)) -> In f (flows db) ->
  flow_crud.get_flow db (Flow.flow_id f) = Some f.
Proof.
  intros ND Hf.
  destruct (flow_crud.get_flow db (Flow.flow_id f)) as [g|] eqn:E.
  - apply get_flow_some in E. destruct E as [Hg E].
    f_equal. now apply (unique_key Flow.flow_id (flows db)).
  - exfalso. rewrite get_flow_none in E. now apply (E f).
Qed.

(** ** delete_flow *)

(** C5. [delete_flow] reports whether it deleted: on a flow_id of the store
    it removes that Flow and nothing else and returns true; on a flow_id
    that is not in the store it returns false, raises nothing and leaves
    the store as it was. *)
Theorem delete_flow_reports_deletion (db : Session) (flow_id : string) :
  integrity db ->
  (forall f, flow_crud.get_flow db flow_id = Some f ->
     exists db',
       flow_crud.delete_flow db flow_id = (db', true)
       /\ flow_crud.get_flow db' flow_id = None
       /\ (forall g, In g (flows db') <-> In g (flows db) /\ g <> f)
       /\ S (List.length (flows db')) = List.length (flows db)
       /\ users db' = users db)
  /\ (flow_crud.get_flow db flow_id = None ->
      flow_crud.delete_flow db flow_id = (db, false)).
Proof.
  intros [Hpk Hfid _ _]. split.
  - intros f Hget. unfold flow_crud.delete_flow. rewrite Hget.
    eexists; split; [reflexivity|].
    destruct (get_flow_some _ _ _ Hget) as [Hf Ef]. simpl.
    assert (Hin : forall g, In g (delete_row Flow.id f (flows db)) <->
                            In g (flows db) /\ g <> f).
    { intro g. rewrite in_delete_row. split; intros [Hg Hne]; split; trivial.
      - intro E. apply Hne. now rewrite E.
      - intro E. apply Hne. now apply (unique_key Flow.id (flows db)). }
    repeat split.
    + apply get_flow_none. simpl. intros g Hg Eg. apply Hin in Hg.
      destruct Hg as [Hg Hne]. apply Hne.
      apply (unique_key Flow.flow_id (flows db)); congruence.
    + now apply Hin.
    + now apply Hin.
    + intros [Hg Hne]. now apply Hin.
    + now apply length_delete_row.
  - intro Hget. unfold flow_crud.delete_flow. now rewrite Hget.
Qed.

(** ** The look-before-write check of the create endpoint *)

(** C4. While a Flow is stored under a flow_id, the endpoint refuses a
    creation request that names this flow_id: its existence check answers
    before any insert, the request ends in Conflict, and the store (the
    stored Flow with it) is left unaltered. *)
Theorem create_flow_duplicate_is_conflict
    (db : Session) (flow : FlowCreate.t) (now : datetime) (f : Flow.t) :
  In f (flows db) ->
  Flow.flow_id f = FlowCreate.flow_id flow ->
  exists e,
    flows_api.create_flow db flow now = (db, Raise e) /\ Conflict e.
Proof.
  intros Hf E. unfold flows_api.create_flow.
  destruct (flow_crud.get_flow db (FlowCreate.flow_id flow)) as [g|] eqn:Hget.
  - eexists. split; reflexivity.
  - exfalso. rewrite get_flow_none in Hget. now apply (Hget f).
Qed.

(** ** Pagination *)

Lemma get_all_flows_defaults (db : Session) :
  flow_crud.get_all_flows db None None
  = flow_crud.get_all_flows db (Some 0) (Some 100).
Proof. reflexivity. Qed.

(** C6. [get_all_flows] pages by offset and limit, [skip] defaulting to 0
    and [limit] to 100: on a store of five Flows, (skip 0, limit 2) is the
    first two Flows, (skip 2, limit 2) is the next two, and no Flow is on
    both pages. *)
Theorem get_all_flows_pages (db : Session) (f1 f2 f3 f4 f5 : Flow.t) :
  integrity db ->
  flows db = [f1; f2; f3; f4; f5] ->
  flow_crud.get_all_flows db (Some 0) (Some 2) = [f1; f2]
  /\ flow_crud.get_all_flows db (Some 2) (Some 2) = [f3; f4]
  /\ (forall f, In f (flow_crud.get_all_flows db (Some 0) (Some 2)) ->
                ~ In f (flow_crud.get_all_flows db (Some 2) (Some 2)))
  /\ flow_crud.get_all_flows db None None = flows db
  /\ (forall skip, flow_crud.get_all_flows db skip None
                   = flow_crud.get_all_flows db skip (Some 100))
  /\ (forall limit, flow_crud.get_all_flows db None limit
                    = flow_crud.get_all_flows db (Some 0) limit).
Proof.
  intros [Hpk _ _ _] E. unfold flow_crud.get_all_flows. rewrite E in *.
  cbn. repeat split; trivial.
  intros f [<- | [<- | []]] [E1 | [E1 | []]];
    rewrite E1 in Hpk; simpl in Hpk;
    repeat match goal with
           | H : NoDup (_ :: _) |- _ => inversion H; clear H; subst
           end; simpl in *; tauto.
Qed.

(** ** The list endpoint *)

(** C10. The list endpoint tests [user_id] for truth, so [user_id = 0] is
    served like a request without [user_id]: every Flow of the store,
    paged, and not the Flows whose owner has id 0. *)
Theorem get_flows_user_id_zero (db : Session) (skip limit : option Z) :
  flows_api.get_flows db (Some 0) skip limit
  = flows_api.get_flows db None skip limit
  /\ flows_api.get_flows db (Some 0) skip limit
     = flow_crud.get_all_flows db skip limit
  /\ (forall f, In f (flows_api.get_flows db (Some 0) skip limit) ->
                Flow.user_id f <> 0 ->
                ~ In f (flow_crud.get_flows_by_user db 0 skip limit)).
Proof.
  unfold flows_api.get_flows. simpl.
  split; [reflexivity|]. split; [now destruct skip, limit|].
  intros f _ Hne H. unfold flow_crud.get_flows_by_user in H.
  apply in_page, filter_In in H. destruct H as [_ H].
  apply Z.eqb_eq in H. contradiction.
Qed.

(** ** Generated flow ids *)

Lemma hexdigit_is_hexdigit (d : N) : uuid.is_hexdigit (uuid.hexdigit d) = true.
Proof.
  destruct d as [|p]; [reflexivity|].
  repeat (destruct p as [p|p|]; try reflexivity).
Qed.

Lemma list_ascii_of_string_app (s1 s2 : string) :
  list_ascii_of_string (s1 ++ s2)
  = list_ascii_of_string s1 ++ list_ascii_of_string s2.
Proof. induction s1 as [|c s1 IH]; simpl; [trivial | now rewrite IH]. Qed.

Lemma length_append (s1 s2 : string) :
  String.length (s1 ++ s2) = (String.length s1 + String.length s2)%nat.
Proof. induction s1 as [|c s1 IH]; simpl; [trivial | now rewrite IH]. Qed.

Lemma hex_digits_length (width : nat) (n : N) :
  String.length (uuid.hex_digits width n) = width.
Proof.
  revert n. induction width as [|w IH]; intro n; simpl; trivial.
  rewrite length_append, IH. simpl. lia.
Qed.

Lemma hex_digits_hex (width : nat) (n : N) :
  forallb uuid.is_hexdigit (list_ascii_of_string (uuid.hex_digits width n))
  = true.
Proof.
  revert n. induction width as [|w IH]; intro n; simpl; trivial.
  rewrite list_ascii_of_string_app, forallb_app, IH. simpl.
  now rewrite hexdigit_is_hexdigit.
Qed.

Lemma substring_forall (p : ascii -> bool) (s : string) (n m : nat) :
  forallb p (list_ascii_of_string s) = true ->
  forallb p (list_ascii_of_string (substring n m s)) = true.
Proof.
  revert n m. induction s as [|c s IH]; intros n m H.
  - destruct n, m; trivial.
  - simpl in H. apply andb_true_iff in H. destruct H as [Hc Hs].
    destruct n as [|n]; [destruct m as [|m]|]; simpl; trivial.
    + rewrite Hc. now apply IH.
    + now apply IH.
Qed.

Lemma substring_prefix_length (s : string) (m : nat) :
  (m <= String.length s)%nat -> String.length (substring 0 m s) = m.
Proof.
  revert m. induction s as [|c s IH]; intros [|m] H; simpl in *; trivial.
  - lia.
  - f_equal. apply IH. lia.
Qed.

Lemma add_flow_ok (db db' : Session) (flow_id name : string)
    (description : option string) (user_id : Z) (now : datetime) (f : Flow.t) :
  add_flow db flow_id name description user_id now = (db', Ok f) ->
  f = Flow.mk (next_pk Flow.id (flows db)) flow_id name description user_id
              now None
  /\ db' = with_flows db (flows db ++ [f])
  /\ flow_crud.get_flow db flow_id = None.
Proof.
  unfold add_flow, flow_crud.get_flow.
  destruct (existsb _ (flows db)) eqn:Hdup; [discriminate|].
  destruct (foreign_keys db && _); [discriminate|].
  intro E. injection E as <- <-. repeat split. now apply find_none_iff.
Qed.

Lemma add_flow_raise (db db' : Session) (flow_id name : string)
    (description : option string) (user_id : Z) (now : datetime) (e : exn) :
  add_flow db flow_id name description user_id now = (db', Raise e) ->
  db' = db.
Proof.
  unfold add_flow.
  destruct (existsb _ (flows db)); [now intros [= <- _]|].
  destruct (foreign_keys db && _); [now intros [= <- _]|discriminate].
Qed.

Lemma add_flow_duplicate (db : Session) (flow_id name : string)
    (description : option string) (user_id : Z) (now : datetime) (f : Flow.t) :
  In f (flows db) -> Flow.flow_id f = flow_id ->
  add_flow db flow_id name description user_id now
  = (db, Raise (IntegrityError "UNIQUE constraint failed: flows.flow_id")).
Proof.
  intros Hf E. unfold add_flow.
  destruct (existsb _ (flows db)) eqn:Hdup; trivial.
  exfalso. apply find_none_iff in Hdup.
  apply (find_none _ _ Hdup) in Hf. apply String.eqb_neq in Hf. contradiction.
Qed.

(** C7. [create_default_flow_for_user] names the new Flow ["flow_"]
    followed by eight hexadecimal characters, the first eight of the
    fresh uuid's hex form, gives it the fixed name and description, and
    hands the row to [create_flow], whose result (the Flow, or the store's
    refusal when the generated flow_id is taken: it is not checked first) it
    returns. *)
Theorem create_default_flow_for_user_delegates
    (db : Session) (user_id : Z) (uuid4 : N) (now : datetime) :
  exists suffix : string,
    suffix = substring 0 8 (uuid.hex uuid4)
    /\ String.length suffix = 8%nat
    /\ forallb uuid.is_hexdigit (list_ascii_of_string suffix) = true
    /\ flow_crud.create_default_flow_for_user db user_id uuid4 now
       = flow_crud.create_flow db
           (FlowCreate.mk ("flow_" ++ suffix) "Мой первый поток"
                          (Some "Автоматически созданный поток") user_id)
           now
    /\ (forall db' f,
          flow_crud.create_default_flow_for_user db user_id uuid4 now
          = (db', Ok f) ->
          Flow.flow_id f = ("flow_" ++ suffix)%string
          /\ Flow.name f = "Мой первый поток"
          /\ Flow.description f = Some "Автоматически созданный поток"
          /\ Flow.user_id f = user_id
          /\ flows db' = flows db ++ [f])
    /\ (forall g, In g (flows db) -> Flow.flow_id g = ("flow_" ++ suffix)%string ->
          exists constraint,
            flow_crud.create_default_flow_for_user db user_id uuid4 now
            = (db, Raise (IntegrityError constraint))).
Proof.
  exists (substring 0 8 (uuid.hex uuid4)).
  split; [reflexivity|]. split.
  { apply substring_prefix_length. unfold uuid.hex.
    rewrite hex_digits_length. lia. }
  split. { apply substring_forall, hex_digits_hex. }
  split; [reflexivity|]. split.
  - intros db' f H. unfold flow_crud.create_default_flow_for_user,
      flow_crud.create_flow in H.
    cbn [FlowCreate.flow_id FlowCreate.name FlowCreate.description
         FlowCreate.user_id] in H.
    apply add_flow_ok in H. destruct H as [-> [-> _]]. repeat split.
  - intros g Hg E. eexists.
    unfold flow_crud.create_default_flow_for_user, flow_crud.create_flow.
    cbn [FlowCreate.flow_id FlowCreate.name FlowCreate.description
         FlowCreate.user_id].
    now apply (add_flow_duplicate _ _ _ _ _ _ g).
Qed.

(** ** update_flow *)

Lemma assigned_fields (flow_update : FlowUpdate.t) (f : Flow.t) :
  fold_left flow_crud.setattr (flow_crud.dict_exclude_unset flow_update) f
  = Flow.mk (Flow.id f) (Flow.flow_id f)
      match FlowUpdate.name flow_update with
      | given v => v
      | unset => Flow.name f
      end
      match FlowUpdate.description flow_update with
      | given v => v
      | unset => Flow.description f
      end
      (Flow.user_id f) (Flow.created_at f) (Flow.updated_at f).
Proof.
  unfold flow_crud.dict_exclude_unset.
  destruct flow_update as [[|n] [|d]], f; reflexivity.
Qed.

Lemma assigned_unchanged (flow_update : FlowUpdate.t) (f : Flow.t) :
  Flow.eqb f
    (fold_left flow_crud.setattr (flow_crud.dict_exclude_unset flow_update) f)
  = negb (changes flow_update f).
Proof.
  rewrite assigned_fields. unfold changes, Flow.eqb. simpl.
  rewrite !Z.eqb_refl, String.eqb_refl.
  assert (Hu : option_eqb Z.eqb (Flow.updated_at f) (Flow.updated_at f) = true)
    by now apply option_eqb_eq; [apply Z.eqb_eq|].
  assert (Hd : forall d : option string, option_eqb String.eqb d d = true)
    by (intro d; now apply option_eqb_eq; [apply String.eqb_eq|]).
  assert (Hsym : forall (a b : option string),
             option_eqb String.eqb a b = option_eqb String.eqb b a).
  { intros [a|] [b|]; simpl; trivial. apply String.eqb_sym. }
  rewrite Hu. simpl. rewrite !andb_true_r.
  destruct flow_update as [[|n] [|d]]; simpl;
    rewrite ?String.eqb_refl, ?Hd, ?orb_false_r, ?negb_orb, ?negb_involutive,
      ?andb_true_r; trivial.
  - apply Hsym.
  - apply String.eqb_sym.
  - f_equal.
    + apply String.eqb_sym.
    + apply Hsym.
Qed.

(** C9. An update whose payload gives no field is a no-op: the stored
    Flow comes back with every field as it was, [updated_at] included, and
    the store is unchanged. *)
Theorem update_flow_empty_is_noop
    (db : Session) (flow_id : string) (now : datetime) (f : Flow.t) :
  flow_crud.get_flow db flow_id = Some f ->
  flow_crud.update_flow db flow_id (FlowUpdate.mk unset unset) now
  = (db, Some f).
Proof.
  intro H. unfold flow_crud.update_flow. rewrite H.
  cbn [flow_crud.dict_exclude_unset FlowUpdate.name FlowUpdate.description
       app fold_left].
  unfold commit_flow.
  now rewrite (proj2 (Flow_eqb_eq f f) eq_refl).
Qed.

Lemma update_flow_absent (db : Session) (flow_id : string)
    (flow_update : FlowUpdate.t) (now : datetime) :
  flow_crud.get_flow db flow_id = None ->
  flow_crud.update_flow db flow_id flow_update now = (db, None).
Proof. intro H. unfold flow_crud.update_flow. now rewrite H. Qed.

Lemma update_flow_unchanged (db : Session) (flow_id : string)
    (flow_update : FlowUpdate.t) (now : datetime) (f : Flow.t) :
  flow_crud.get_flow db flow_id = Some f ->
  changes flow_update f = false ->
  flow_crud.update_flow db flow_id flow_update now = (db, Some f).
Proof.
  intros H Hc. unfold flow_crud.update_flow, commit_flow. rewrite H.
  cbv zeta. now rewrite assigned_unchanged, Hc.
Qed.

Lemma update_flow_changed (db : Session) (flow_id : string)
    (flow_update : FlowUpdate.t) (now : datetime) (f : Flow.t) :
  flow_crud.get_flow db flow_id = Some f ->
  changes flow_update f = true ->
  let f' :=
    Flow.mk (Flow.id f) (Flow.flow_id f)
      match FlowUpdate.name flow_update with
      | given v => v
      | unset => Flow.name f
      end
      match FlowUpdate.description flow_update with
      | given v => v
      | unset => Flow.description f
      end
      (Flow.user_id f) (Flow.created_at f) (Some now) in
  flow_crud.update_flow db flow_id flow_update now
  = (with_flows db (replace_row Flow.id f' (flows db)), Some f').
Proof.
  intros H Hc. unfold flow_crud.update_flow, commit_flow. rewrite H.
  cbv zeta. rewrite assigned_unchanged, Hc. simpl negb. cbv iota.
  now rewrite assigned_fields.
Qed.

(** An UPDATE that keeps the row's keys keeps the table's integrity and
    every other row, and the row is found under its flow_id again. *)
Lemma replace_flow_row (db : Session) (f f' : Flow.t) :
  integrity db -> In f (flows db) ->
  Flow.id f' = Flow.id f -> Flow.flow_id f' = Flow.flow_id f ->
  let db' := with_flows db (replace_row Flow.id f' (flows db)) in
  integrity db'
  /\ flow_crud.get_flow db' (Flow.flow_id f) = Some f'
  /\ (forall g, In g (flows db) -> g <> f -> In g (flows db'))
  /\ (forall g, In g (flows db') -> g = f' \/ In g (flows db) /\ g <> f).
Proof.
  intros [Hpk Hfid Hupk Huname] Hf Eid Efid db'.
  assert (Hsame : forall y, In y (flows db) -> Flow.id y = Flow.id f' -> y = f).
  { intros y Hy E. apply (unique_key Flow.id (flows db)); congruence. }
  assert (Hint : integrity db').
  { split; simpl; trivial.
    - rewrite map_key_replace_row; trivial.
    - rewrite map_key_replace_row; trivial.
      intros y Hy E. rewrite (Hsame y Hy E). congruence. }
  split; [exact Hint|]. split; [|split].
  - rewrite <- Efid. apply get_flow_stored; [apply Hint|].
    simpl. apply (replace_row_puts Flow.id f' f); trivial. congruence.
  - intros g Hg Hne. simpl. apply replace_row_keeps; trivial.
    intro E. apply Hne. now apply Hsame.
  - intros g Hg. simpl in Hg. apply in_replace_row in Hg.
    destruct Hg as [[-> _] | [Hg Hne]]; [now left | right].
    split; trivial. intros ->. apply Hne. congruence.
Qed.

Lemma update_flow_present
    (db : Session) (flow_id : string) (flow_update : FlowUpdate.t)
    (now : datetime) (f : Flow.t) :
  integrity db ->
  flow_crud.get_flow db flow_id = Some f ->
     exists db' f',
       flow_crud.update_flow db flow_id flow_update now = (db', Some f')
       /\ Flow.name f' = match FlowUpdate.name flow_update with
                         | given v => v
                         | unset => Flow.name f
                         end
       /\ Flow.description f' = match FlowUpdate.description flow_update with
                                | given v => v
                                | unset => Flow.description f
                                end
       /\ Flow.id f' = Flow.id f
       /\ Flow.flow_id f' = Flow.flow_id f
       /\ Flow.user_id f' = Flow.user_id f
       /\ Flow.created_at f' = Flow.created_at f
       /\ Flow.updated_at f' = (if changes flow_update f then Some now
                                else Flow.updated_at f)
       /\ flow_crud.get_flow db' flow_id = Some f'
       /\ (forall g, In g (flows db) -> g <> f -> In g (flows db'))
       /\ List.length (flows db') = List.length (flows db)
       /\ users db' = users db.
Proof.
  intros Hint Hget. destruct (get_flow_some _ _ _ Hget) as [Hf Efid].
  destruct (changes flow_update f) eqn:Hc.
  - rewrite (update_flow_changed _ _ _ now _ Hget Hc). cbv zeta.
    eexists. eexists. split; [reflexivity|].
    cbn [Flow.name Flow.description Flow.id Flow.flow_id Flow.user_id
         Flow.created_at Flow.updated_at].
    repeat (split; [reflexivity|]).
    match goal with
    | |- context [replace_row Flow.id ?r _] =>
        destruct (replace_flow_row db f r Hint Hf eq_refl eq_refl)
          as [_ [Hstored [Hkeeps _]]]
    end.
    split; [now rewrite <- Efid|]. split; [exact Hkeeps|].
    split; [apply length_replace_row | reflexivity].
  - rewrite (update_flow_unchanged _ _ _ now _ Hget Hc).
    exists db, f. split; [reflexivity|].
    unfold changes in Hc. apply orb_false_iff in Hc. destruct Hc as [Hn Hd].
    split. { destruct (FlowUpdate.name flow_update); trivial.
             apply negb_false_iff, String.eqb_eq in Hn. now symmetry. }
    split. { destruct (FlowUpdate.description flow_update); trivial.
             apply negb_false_iff in Hd.
             apply (option_eqb_eq _ String.eqb_eq) in Hd. now symmetry. }
    repeat (split; [reflexivity|]). split; [exact Hget|].
    split; [now intros|]. split; reflexivity.
Qed.

(** C3, as the code has it.  On a flow_id of the store, [update_flow]
    assigns the fields the payload gives and leaves the others, and every
    other Flow and User, as they were; it returns the Flow as stored
    afterwards.  [updated_at] becomes the time of the update when a given
    field differs from the stored value, and stays as it was when none
    does.  On a flow_id that is not in the store it returns absent and
    changes nothing. *)
Theorem update_flow_partial
    (db : Session) (flow_id : string) (flow_update : FlowUpdate.t)
    (now : datetime) :
  integrity db ->
  (forall f, flow_crud.get_flow db flow_id = Some f ->
     exists db' f',
       flow_crud.update_flow db flow_id flow_update now = (db', Some f')
       /\ Flow.name f' = match FlowUpdate.name flow_update with
                         | given v => v
                         | unset => Flow.name f
                         end
       /\ Flow.description f' = match FlowUpdate.description flow_update with
                                | given v => v
                                | unset => Flow.description f
                                end
       /\ Flow.id f' = Flow.id f
       /\ Flow.flow_id f' = Flow.flow_id f
       /\ Flow.user_id f' = Flow.user_id f
       /\ Flow.created_at f' = Flow.created_at f
       /\ Flow.updated_at f' = (if changes flow_update f then Some now
                                else Flow.updated_at f)
       /\ flow_crud.get_flow db' flow_id = Some f'
       /\ (forall g, In g (flows db) -> g <> f -> In g (flows db'))
       /\ List.length (flows db') = List.length (flows db)
       /\ users db' = users db)
  /\ (flow_crud.get_flow db flow_id = None ->
      flow_crud.update_flow db flow_id flow_update now = (db, None)).
Proof.
  intro Hint. split.
  - intros f Hget. now apply update_flow_present.
  - apply update_flow_absent.
Qed.

(** ** The store's integrity is kept by every repository call *)

Lemma nodup_snoc {A : Type} (l : list A) (x : A) :
  NoDup l -> ~ In x l -> NoDup (l ++ [x]).
Proof.
  intros ND Hx. apply NoDup_app; trivial.
  - constructor; [tauto | constructor].
  - intros a Ha [<- | []]. contradiction.
Qed.

Lemma existsb_key_false {R : Type} (key : R -> string) (k : string)
    (rows : list R) :
  existsb (fun r => String.eqb (key r) k) rows = false ->
  ~ In k (map key rows).
Proof.
  intros H Hin. apply in_map_iff in Hin. destruct Hin as [r [E Hr]].
  apply find_none_iff in H. apply (find_none _ _ H) in Hr.
  apply String.eqb_neq in Hr. contradiction.
Qed.

Lemma replace_row_fresh_key {R : Type} (pk : R -> Z) (key : R -> string)
    (r : R) (rows : list R) :
  NoDup (map pk rows) -> NoDup (map key rows) ->
  ~ In (key r) (map key rows) ->
  NoDup (map key (replace_row pk r rows)).
Proof.
  unfold replace_row.
  induction rows as [|a rows IH]; simpl; intros Hpk Hkey Hfresh; trivial.
  inversion Hpk as [|? ? Hpa Hpk']; inversion Hkey as [|? ? Hka Hkey']; subst.
  assert (Hfresh' : ~ In (key r) (map key rows)) by tauto.
  constructor; [|now apply IH].
  intro Hin. apply in_map_iff in Hin. destruct Hin as [y [Ey Hy]].
  apply in_map_iff in Hy. destruct Hy as [z [Ez Hz]].
  destruct (Z.eqb_spec (pk z) (pk r)) as [Epz|Epz]; subst y.
  - destruct (Z.eqb_spec (pk a) (pk r)) as [Epa|Epa].
    + apply Hpa. rewrite Epa, <- Epz. now apply in_map.
    + apply Hfresh. left. congruence.
  - destruct (Z.eqb_spec (pk a) (pk r)) as [Epa|Epa].
    + apply Hfresh. right. rewrite <- Ey. now apply in_map.
    + apply Hka. rewrite <- Ey. now apply in_map.
Qed.

Lemma add_flow_integrity (db : Session) (flow_id name : string)
    (description : option string) (user_id : Z) (now : datetime) :
  integrity db ->
  integrity (fst (add_flow db flow_id name description user_id now)).
Proof.
  intros Hint. unfold add_flow.
  destruct (existsb _ (flows db)) eqn:Hdup; trivial.
  destruct (foreign_keys db && _); trivial.
  destruct Hint as [Hpk Hfid Hupk Huname].
  split; simpl; trivial; rewrite map_app; simpl; apply nodup_snoc; trivial.
  - apply next_pk_fresh.
  - now apply existsb_key_false.
Qed.

Lemma add_user_integrity (db : Session) (username : string)
    (email : option string) (is_active : bool) (now : datetime) :
  integrity db ->
  integrity (fst (add_user db username email is_active now)).
Proof.
  intros Hint. unfold add_user.
  destruct (existsb _ (users db)) eqn:Hdup; trivial.
  destruct Hint as [Hpk Hfid Hupk Huname].
  split; simpl; trivial; rewrite map_app; simpl; apply nodup_snoc; trivial.
  - apply next_pk_fresh.
  - now apply existsb_key_false.
Qed.

Lemma update_flow_integrity (db : Session) (flow_id : string)
    (flow_update : FlowUpdate.t) (now : datetime) :
  integrity db ->
  integrity (fst (flow_crud.update_flow db flow_id flow_update now)).
Proof.
  intro Hint.
  destruct (flow_crud.get_flow db flow_id) as [f|] eqn:Hget.
  - destruct (changes flow_update f) eqn:Hc.
    + rewrite (update_flow_changed _ _ _ now _ Hget Hc). cbv zeta.
      apply get_flow_some in Hget. destruct Hget as [Hf _].
      now apply (replace_flow_row db f).
    + now rewrite (update_flow_unchanged _ _ _ now _ Hget Hc).
  - now rewrite update_flow_absent.
Qed.

Lemma delete_flow_integrity (db : Session) (flow_id : string) :
  integrity db -> integrity (fst (flow_crud.delete_flow db flow_id)).
Proof.
  intros Hint. unfold flow_crud.delete_flow.
  destruct (flow_crud.get_flow db flow_id) as [f|]; trivial.
  destruct Hint as [Hpk Hfid Hupk Huname].
  split; simpl; trivial; unfold delete_row; now apply nodup_map_filter.
Qed.

(** ** update_user *)

Lemma get_user_some (db : Session) (user_id : Z) (u : User.t) :
  user_crud.get_user db user_id = Some u ->
  In u (users db) /\ User.id u = user_id.
Proof.
  unfold user_crud.get_user. intro H. apply find_some in H.
  now rewrite Z.eqb_eq in H.
Qed.

Lemma get_user_stored (db : Session) (u : User.t) :
  NoDup (map User.id (users db)) -> In u (users db) ->
  user_crud.get_user db (User.id u) = Some u.
Proof.
  intros ND Hu. unfold user_crud.get_user.
  destruct (find _ (users db)) as [v|] eqn:E.
  - apply find_some in E. destruct E as [Hv E]. apply Z.eqb_eq in E.
    f_equal. now apply (unique_key User.id (users db)).
  - apply (find_none _ _ E) in Hu. now rewrite Z.eqb_refl in Hu.
Qed.

Lemma user_assigned_fields (user_update : UserUpdate.t) (u : User.t) :
  fold_left user_crud.setattr (user_crud.dict_exclude_unset user_update)
            (Some u)
  = if user_nulls user_update then None
    else Some (User.mk (User.id u)
                 match UserUpdate.username user_update with
                 | given (Some v) => v
                 | _ => User.username u
                 end
                 match UserUpdate.email user_update with
                 | given v => v
                 | unset => User.email u
                 end
                 match UserUpdate.is_active user_update with
                 | given (Some v) => v
                 | _ => User.is_active u
                 end
                 (User.created_at u) (User.updated_at u)).
Proof.
  unfold user_crud.dict_exclude_unset, user_nulls.
  destruct user_update as [[|[n|]] [|e] [|[a|]]], u; reflexivity.
Qed.

Lemma user_assigned_unchanged (user_update : UserUpdate.t) (u a : User.t) :
  fold_left user_crud.setattr (user_crud.dict_exclude_unset user_update)
            (Some u) = Some a ->
  User.eqb u a = negb (user_changes user_update u).
Proof.
  rewrite user_assigned_fields.
  destruct (user_nulls user_update); [discriminate|].
  intros [= <-]. unfold user_changes, User.eqb. simpl.
  rewrite !Z.eqb_refl.
  assert (Hu : option_eqb Z.eqb (User.updated_at u) (User.updated_at u) = true)
    by now apply option_eqb_eq; [apply Z.eqb_eq|].
  assert (Hd : forall d : option string, option_eqb String.eqb d d = true)
    by (intro d; now apply option_eqb_eq; [apply String.eqb_eq|]).
  assert (Hsym : forall (x y : option string),
             option_eqb String.eqb x y = option_eqb String.eqb y x).
  { intros [x|] [y|]; simpl; trivial. apply String.eqb_sym. }
  assert (Hb : forall x y, Bool.eqb x y = Bool.eqb y x) by now intros [|] [|].
  rewrite Hu, !andb_true_r. simpl.
  rewrite !negb_orb.
  f_equal; [f_equal|].
  - destruct (UserUpdate.username user_update) as [|[v|]]; simpl;
      rewrite ?String.eqb_refl, ?negb_involutive; trivial.
    apply String.eqb_sym.
  - destruct (UserUpdate.email user_update) as [|v]; simpl;
      rewrite ?Hd, ?negb_involutive; trivial.
  - destruct (UserUpdate.is_active user_update) as [|[v|]]; simpl;
      rewrite ?Bool.eqb_reflx, ?negb_involutive; trivial.
Qed.

Lemma update_user_quiet (db : Session) (user_id : Z)
    (user_update : UserUpdate.t) (now : datetime) (u : User.t) :
  user_crud.get_user db user_id = Some u ->
  user_changes user_update u = false \/ user_nulls user_update = true ->
  fst (user_crud.update_user db user_id user_update now) = db.
Proof.
  intros Hget H. unfold user_crud.update_user. rewrite Hget. cbv zeta.
  destruct (fold_left _ _ _) as [a|] eqn:Ha; trivial.
  unfold commit_user. rewrite (user_assigned_unchanged _ _ _ Ha).
  rewrite user_assigned_fields in Ha.
  destruct (user_nulls user_update); [discriminate|].
  destruct H as [-> | H]; [trivial | discriminate].
Qed.

(** What a successful, mutating [update_user] stores. *)
Lemma update_user_changed (db db' : Session) (user_id : Z)
    (user_update : UserUpdate.t) (now : datetime) (u u' : User.t) :
  user_crud.get_user db user_id = Some u ->
  user_crud.update_user db user_id user_update now = (db', Ok (Some u')) ->
  user_changes user_update u = true ->
  db' = with_users db (replace_row User.id u' (users db))
  /\ User.id u' = User.id u
  /\ User.created_at u' = User.created_at u
  /\ User.updated_at u' = Some now
  /\ (User.username u' = User.username u
      \/ ~ In (User.username u') (map User.username (users db))).
Proof.
  intros Hget H Hc. unfold user_crud.update_user in H. rewrite Hget in H.
  cbv zeta in H.
  destruct (fold_left _ _ _) as [a|] eqn:Ha; [|discriminate].
  unfold commit_user in H. rewrite (user_assigned_unchanged _ _ _ Ha), Hc in H.
  simpl negb in H. cbv iota in H.
  rewrite user_assigned_fields in Ha.
  destruct (user_nulls user_update); [discriminate|]. injection Ha as <-.
  destruct (negb _ && existsb _ (users db)) eqn:Hdup; [discriminate|].
  injection H as <- <-. repeat split.
  apply andb_false_iff in Hdup. destruct Hdup as [Hsame | Hfresh].
  - left. apply negb_false_iff, String.eqb_eq in Hsame. now symmetry.
  - right. now apply existsb_key_false.
Qed.

Lemma update_user_unchanged (db db' : Session) (user_id : Z)
    (user_update : UserUpdate.t) (now : datetime) (u u' : User.t) :
  user_crud.get_user db user_id = Some u ->
  user_crud.update_user db user_id user_update now = (db', Ok (Some u')) ->
  user_changes user_update u = false ->
  db' = db /\ u' = u.
Proof.
  intros Hget H Hc. unfold user_crud.update_user in H. rewrite Hget in H.
  cbv zeta in H.
  destruct (fold_left _ _ _) as [a|] eqn:Ha; [|discriminate].
  unfold commit_user in H. rewrite (user_assigned_unchanged _ _ _ Ha), Hc in H.
  simpl in H. now injection H as <- <-.
Qed.

Lemma update_user_refused (db db' : Session) (user_id : Z)
    (user_update : UserUpdate.t) (now : datetime) (e : exn) :
  user_crud.update_user db user_id user_update now = (db', Raise e) ->
  db' = db.
Proof.
  unfold user_crud.update_user, commit_user.
  destruct (user_crud.get_user db user_id) as [u|]; [|discriminate].
  cbv zeta. destruct (fold_left _ _ _) as [a|]; [|now intros [= <- _]].
  destruct (User.eqb u a); [discriminate|].
  destruct (negb _ && _); [now intros [= <- _] | discriminate].
Qed.

Lemma update_user_found (db db' : Session) (user_id : Z)
    (user_update : UserUpdate.t) (now : datetime) (u : User.t) :
  user_crud.get_user db user_id = Some u ->
  user_crud.update_user db user_id user_update now <> (db', Ok None).
Proof.
  intros Hget. unfold user_crud.update_user, commit_user. rewrite Hget.
  cbv zeta. destruct (fold_left _ _ _) as [a|]; [|discriminate].
  destruct (User.eqb u a); [discriminate|].
  destruct (negb _ && _); discriminate.
Qed.

Lemma replace_user_row (db : Session) (u u' : User.t) :
  integrity db -> In u (users db) ->
  User.id u' = User.id u ->
  (User.username u' = User.username u
   \/ ~ In (User.username u') (map User.username (users db))) ->
  let db' := with_users db (replace_row User.id u' (users db)) in
  integrity db'
  /\ user_crud.get_user db' (User.id u) = Some u'
  /\ (forall v, In v (users db) -> v <> u -> In v (users db')).
Proof.
  intros [Hpk Hfid Hupk Huname] Hu Eid Hname db'.
  assert (Hsame : forall y, In y (users db) -> User.id y = User.id u' -> y = u).
  { intros y Hy E. apply (unique_key User.id (users db)); congruence. }
  assert (Hint : integrity db').
  { split; simpl; trivial.
    - rewrite map_key_replace_row; trivial.
    - destruct Hname as [Hname | Hname].
      + rewrite map_key_replace_row; trivial.
        intros y Hy E. rewrite (Hsame y Hy E). congruence.
      + now apply replace_row_fresh_key. }
  split; [exact Hint|]. split.
  - rewrite <- Eid. apply get_user_stored; [apply Hint|].
    simpl. apply (replace_row_puts User.id u' u); trivial. congruence.
  - intros v Hv Hne. simpl. apply replace_row_keeps; trivial.
    intro E. apply Hne. now apply Hsame.
Qed.

Lemma update_user_integrity (db : Session) (user_id : Z)
    (user_update : UserUpdate.t) (now : datetime) :
  integrity db ->
  integrity (fst (user_crud.update_user db user_id user_update now)).
Proof.
  intro Hint.
  destruct (user_crud.get_user db user_id) as [u|] eqn:Hget.
  - destruct (user_changes user_update u) eqn:Hc.
    + destruct (user_crud.update_user db user_id user_update now)
        as [db' [[u'|]|e]] eqn:H.
      * destruct (update_user_changed _ _ _ _ _ _ _ Hget H Hc)
          as [-> [Eid [_ [_ Hname]]]].
        apply get_user_some in Hget. destruct Hget as [Hu _].
        now apply (replace_user_row db u).
      * exfalso. now apply (update_user_found _ _ _ _ _ _ Hget H).
      * apply update_user_refused in H. now subst.
    + rewrite (update_user_quiet _ _ _ now _ Hget); tauto.
  - unfold user_crud.update_user. now rewrite Hget.
Qed.

(** ** One repository call *)

Lemma run_call_integrity (db : Session) (c : call) (now : datetime) :
  integrity db -> integrity (run_call db c now).
Proof.
  intro Hint. destruct c; unfold run_call.
  - now apply add_flow_integrity.
  - now apply add_flow_integrity.
  - now apply update_flow_integrity.
  - now apply delete_flow_integrity.
  - now apply add_user_integrity.
  - now apply update_user_integrity.
Qed.

Lemma add_flow_frame (db : Session) (flow_id name : string)
    (description : option string) (user_id : Z) (now : datetime) :
  let db' := fst (add_flow db flow_id name description user_id now) in
  users db' = users db /\ forall f, In f (flows db) -> In f (flows db').
Proof.
  unfold add_flow.
  destruct (existsb _ (flows db)); [now split|].
  destruct (foreign_keys db && _); [now split|].
  simpl. split; trivial. intros f Hf. apply in_or_app. now left.
Qed.

Lemma add_user_frame (db : Session) (username : string)
    (email : option string) (is_active : bool) (now : datetime) :
  let db' := fst (add_user db username email is_active now) in
  flows db' = flows db /\ forall u, In u (users db) -> In u (users db').
Proof.
  unfold add_user.
  destruct (existsb _ (users db)); [now split|].
  simpl. split; trivial. intros u Hu. apply in_or_app. now left.
Qed.

Lemma update_flow_users (db : Session) (flow_id : string)
    (flow_update : FlowUpdate.t) (now : datetime) :
  users (fst (flow_crud.update_flow db flow_id flow_update now)) = users db.
Proof.
  unfold flow_crud.update_flow, commit_flow.
  destruct (flow_crud.get_flow db flow_id) as [f|]; trivial.
  cbv zeta. now destruct (Flow.eqb f _).
Qed.

Lemma delete_flow_users (db : Session) (flow_id : string) :
  users (fst (flow_crud.delete_flow db flow_id)) = users db.
Proof.
  unfold flow_crud.delete_flow.
  now destruct (flow_crud.get_flow db flow_id).
Qed.

Lemma update_user_flows (db : Session) (user_id : Z)
    (user_update : UserUpdate.t) (now : datetime) :
  flows (fst (user_crud.update_user db user_id user_update now)) = flows db.
Proof.
  unfold user_crud.update_user, commit_user.
  destruct (user_crud.get_user db user_id) as [u|]; trivial.
  cbv zeta. destruct (fold_left _ _ _) as [a|]; trivial.
  destruct (User.eqb u a); trivial.
  now destruct (negb _ && _).
Qed.

Lemma run_call_leaves_flow (db : Session) (c : call) (now : datetime)
    (f : Flow.t) :
  integrity db -> In f (flows db) -> leaves_flow f c ->
  In f (flows (run_call db c now)).
Proof.
  intros Hint Hf Hq. destruct c as [fc|uid u4|fid fu|fid|uc|uid uu];
    unfold run_call.
  - now apply add_flow_frame.
  - now apply add_flow_frame.
  - simpl in Hq.
    destruct (flow_crud.get_flow db fid) as [g|] eqn:Hget;
      [|now rewrite update_flow_absent].
    destruct (changes fu g) eqn:Hc;
      [|now rewrite (update_flow_unchanged _ _ _ now _ Hget Hc)].
    rewrite (update_flow_changed _ _ _ now _ Hget Hc). cbv zeta.
    destruct (get_flow_some _ _ _ Hget) as [Hg Eg].
    apply (replace_flow_row db g); trivial.
    intros ->. rewrite (Hq (eq_sym Eg)) in Hc. discriminate.
  - simpl in Hq. unfold flow_crud.delete_flow.
    destruct (flow_crud.get_flow db fid) as [g|] eqn:Hget; trivial.
    destruct (get_flow_some _ _ _ Hget) as [Hg Eg]. simpl.
    apply in_delete_row. split; trivial.
    intro E. apply Hq. rewrite <- Eg. f_equal.
    symmetry. apply (unique_key Flow.id (flows db)); trivial. apply Hint.
  - unfold user_crud.create_user.
    now rewrite (proj1 (add_user_frame db _ _ _ now)).
  - now rewrite update_user_flows.
Qed.

Lemma run_call_leaves_user (db : Session) (c : call) (now : datetime)
    (u : User.t) :
  integrity db -> In u (users db) -> leaves_user u c ->
  In u (users (run_call db c now)).
Proof.
  intros Hint Hu Hq. destruct c as [fc|uid u4|fid fu|fid|uc|uid uu];
    unfold run_call.
  - unfold flow_crud.create_flow.
    now rewrite (proj1 (add_flow_frame db _ _ _ _ now)).
  - unfold flow_crud.create_default_flow_for_user, flow_crud.create_flow.
    now rewrite (proj1 (add_flow_frame db _ _ _ _ now)).
  - now rewrite update_flow_users.
  - now rewrite delete_flow_users.
  - now apply add_user_frame.
  - simpl in Hq.
    destruct (user_crud.get_user db uid) as [v|] eqn:Hget;
      [|unfold user_crud.update_user; now rewrite Hget].
    destruct (get_user_some _ _ _ Hget) as [Hv Ev].
    destruct (user_changes uu v) eqn:Hc;
      [|rewrite (update_user_quiet _ _ _ now _ Hget); tauto].
    destruct (user_crud.update_user db uid uu now) as [db' [[v'|]|e]] eqn:H.
    + destruct (update_user_changed _ _ _ _ _ _ _ Hget H Hc)
        as [-> [Eid [_ [_ Hname]]]].
      simpl. apply (replace_user_row db v); trivial.
      intros ->. destruct (Hq (eq_sym Ev)) as [Hq' | Hq'].
      * rewrite Hq' in Hc. discriminate.
      * unfold user_crud.update_user in H. rewrite Hget in H. cbv zeta in H.
        rewrite user_assigned_fields, Hq' in H. discriminate.
    + exfalso. now apply (update_user_found _ _ _ _ _ _ Hget H).
    + apply update_user_refused in H. now subst.
Qed.

(** ** Histories of calls *)

Lemma run_calls_integrity (db : Session) (history : list (call * datetime)) :
  integrity db -> integrity (run_calls db history).
Proof.
  revert db. induction history as [|[c now] rest IH]; intros db Hint; trivial.
  simpl. now apply IH, run_call_integrity.
Qed.

Lemma run_calls_leave_flow (db : Session) (history : list (call * datetime))
    (f : Flow.t) :
  integrity db -> In f (flows db) ->
  Forall (fun cn => leaves_flow f (fst cn)) history ->
  In f (flows (run_calls db history)).
Proof.
  revert db. induction history as [|[c now] rest IH]; intros db Hint Hf Hq;
    trivial.
  inversion Hq as [|? ? Hc Hrest]; subst. simpl.
  apply IH; trivial.
  - now apply run_call_integrity.
  - now apply run_call_leaves_flow.
Qed.

Lemma run_calls_leave_user (db : Session) (history : list (call * datetime))
    (u : User.t) :
  integrity db -> In u (users db) ->
  Forall (fun cn => leaves_user u (fst cn)) history ->
  In u (users (run_calls db history)).
Proof.
  revert db. induction history as [|[c now] rest IH]; intros db Hint Hu Hq;
    trivial.
  inversion Hq as [|? ? Hc Hrest]; subst. simpl.
  apply IH; trivial.
  - now apply run_call_integrity.
  - now apply run_call_leaves_user.
Qed.

(** ** Timestamps *)

Lemma create_user_ok (db db' : Session) (user : UserCreate.t)
    (now : datetime) (u : User.t) :
  user_crud.create_user db user now = (db', Ok u) ->
  u = User.mk (next_pk User.id (users db)) (UserCreate.username user)
              (UserCreate.email user) (UserCreate.is_active user) now None
  /\ db' = with_users db (users db ++ [u]).
Proof.
  unfold user_crud.create_user, add_user.
  destruct (existsb _ (users db)); [discriminate|].
  intro E. now injection E as <- <-.
Qed.

(** C8. A Flow or a User is created with [created_at] set and
    [updated_at] null; as long as no mutating update is applied to it (and
    it is not deleted) its row stays exactly as it is, so [updated_at]
    stays null until the first mutating update; an update that changes a
    field sets [updated_at] to the time of the update; no update changes
    [created_at]. *)
Theorem timestamps_of_entities :
  (forall db flow now db' f,
     flow_crud.create_flow db flow now = (db', Ok f) ->
     In f (flows db')
     /\ Flow.created_at f = now /\ Flow.updated_at f = None)
  /\ (forall db user now db' u,
        user_crud.create_user db user now = (db', Ok u) ->
        In u (users db')
        /\ User.created_at u = now /\ User.updated_at u = None)
  /\ (forall db history f,
        integrity db -> In f (flows db) ->
        Forall (fun cn => leaves_flow f (fst cn)) history ->
        In f (flows (run_calls db history)))
  /\ (forall db history u,
        integrity db -> In u (users db) ->
        Forall (fun cn => leaves_user u (fst cn)) history ->
        In u (users (run_calls db history)))
  /\ (forall db flow_id flow_update now f,
        integrity db -> flow_crud.get_flow db flow_id = Some f ->
        exists db' f',
          flow_crud.update_flow db flow_id flow_update now = (db', Some f')
          /\ flow_crud.get_flow db' flow_id = Some f'
          /\ Flow.created_at f' = Flow.created_at f
          /\ (changes flow_update f = true -> Flow.updated_at f' = Some now))
  /\ (forall db user_id user_update now u db' u',
        integrity db -> user_crud.get_user db user_id = Some u ->
        user_crud.update_user db user_id user_update now
        = (db', Ok (Some u')) ->
        user_crud.get_user db' user_id = Some u'
        /\ User.created_at u' = User.created_at u
        /\ (user_changes user_update u = true ->
            User.updated_at u' = Some now)).
Proof.
  split; [|split; [|split; [|split; [|split]]]].
  - intros db flow now db' f H. unfold flow_crud.create_flow in H.
    apply add_flow_ok in H. destruct H as [-> [-> _]]. simpl.
    repeat split. apply in_or_app. right. now left.
  - intros db user now db' u H. apply create_user_ok in H.
    destruct H as [-> ->]. simpl.
    repeat split. apply in_or_app. right. now left.
  - intros. now apply run_calls_leave_flow.
  - intros. now apply run_calls_leave_user.
  - intros db flow_id flow_update now f Hint Hget.
    destruct (update_flow_present db flow_id flow_update now f Hint Hget)
      as [db' [f' [H [_ [_ [_ [_ [_ [Hc [Hu [Hstored _]]]]]]]]]]].
    exists db', f'. repeat split; trivial.
    intro Hch. now rewrite Hch in Hu.
  - intros db user_id user_update now u db' u' Hint Hget H.
    destruct (get_user_some _ _ _ Hget) as [Hu Eid].
    destruct (user_changes user_update u) eqn:Hc.
    + destruct (update_user_changed _ _ _ _ _ _ _ Hget H Hc)
        as [-> [Eid' [Hcr [Hup Hname]]]].
      repeat split; trivial.
      rewrite <- Eid. now apply (replace_user_row db u).
    + destruct (update_user_unchanged _ _ _ _ _ _ _ Hget H Hc) as [-> ->].
      repeat split; trivial. discriminate.
Qed.

(** ** The bootstrap *)

Lemma find_none_filter {A : Type} (p : A -> bool) (l : list A) :
  find p l = None -> filter p l = [].
Proof.
  induction l as [|a l IH]; simpl; trivial.
  destruct (p a); [discriminate | exact IH].
Qed.

Lemma add_flow_succeeds (db : Session) (flow_id name : string)
    (description : option string) (user_id : Z) (now : datetime) (u : User.t) :
  unused db flow_id -> In u (users db) -> User.id u = user_id ->
  add_flow db flow_id name description user_id now
  = (with_flows db
       (flows db ++ [Flow.mk (next_pk Flow.id (flows db)) flow_id name
                             description user_id now None]),
     Ok (Flow.mk (next_pk Flow.id (flows db)) flow_id name description
                 user_id now None)).
Proof.
  intros Hfree Hu Eu. unfold add_flow.
  apply find_none_iff in Hfree. rewrite Hfree.
  assert (Hex : existsb (fun v => User.id v =? user_id) (users db) = true).
  { apply existsb_exists. exists u. split; trivial. now apply Z.eqb_eq. }
  now rewrite Hex, andb_false_r.
Qed.

(** [lifespan] stops at a root it finds: it never looks at root's Flows. *)
Lemma lifespan_root_present (db : Session) (uuid4 : N) (now later : datetime)
    (root : User.t) :
  root_user db = Some root -> main.lifespan db uuid4 now later = db.
Proof.
  intro Hroot. unfold main.lifespan.
  change (find _ (users db)) with (root_user db). now rewrite Hroot.
Qed.

Lemma init_database_root_has_flows (db : Session) (uuid4 : N)
    (now later : datetime) (root : User.t) :
  root_user db = Some root -> flows_of db (User.id root) <> [] ->
  init_db.init_database db uuid4 now later = db.
Proof.
  intros Hroot Hflows. unfold init_db.init_database.
  change (find _ (users db)) with (root_user db). rewrite Hroot. cbv zeta.
  change (filter _ (flows db)) with (flows_of db (User.id root)).
  now destruct (flows_of db (User.id root)).
Qed.

Lemma init_database_root_gets_flow (db : Session) (uuid4 : N)
    (now later : datetime) (root : User.t) :
  root_user db = Some root -> flows_of db (User.id root) = [] ->
  unused db (uuid.new_flow_id uuid4) ->
  init_db.init_database db uuid4 now later
  = with_flows db
      (flows db
       ++ [Flow.mk (next_pk Flow.id (flows db)) (uuid.new_flow_id uuid4)
             "Тестовый поток"
             (Some "Автоматически созданный поток для тестирования")
             (User.id root) now None]).
Proof.
  intros Hroot Hflows Hfree. unfold init_db.init_database.
  change (find _ (users db)) with (root_user db). rewrite Hroot. cbv zeta.
  change (filter _ (flows db)) with (flows_of db (User.id root)).
  rewrite Hflows.
  apply find_some in Hroot. destruct Hroot as [Hin _].
  now rewrite (add_flow_succeeds _ _ _ _ _ _ root Hfree Hin eq_refl).
Qed.

Lemma init_database_flow_id_taken (db : Session) (uuid4 : N)
    (now later : datetime) (root : User.t) :
  root_user db = Some root -> flows_of db (User.id root) = [] ->
  ~ unused db (uuid.new_flow_id uuid4) ->
  init_db.init_database db uuid4 now later = db.
Proof.
  intros Hroot Hflows Htaken. unfold init_db.init_database.
  change (find _ (users db)) with (root_user db). rewrite Hroot. cbv zeta.
  change (filter _ (flows db)) with (flows_of db (User.id root)).
  rewrite Hflows. unfold unused in Htaken.
  destruct (flow_crud.get_flow db (uuid.new_flow_id uuid4)) as [g|] eqn:Hget;
    [|tauto].
  apply get_flow_some in Hget. destruct Hget as [Hg Eg].
  now rewrite (add_flow_duplicate _ _ _ _ _ _ g Hg Eg).
Qed.

Lemma bootstrap_from_empty (r : routine) (fk : bool) (uuid4 : N)
    (now later : datetime) :
  bootstrap r (empty_store fk) uuid4 now later
  = mkSession
      [User.mk 1 "root" (Some "root@krok-mvp.local") true now None]
      [Flow.mk 1 (uuid.new_flow_id uuid4) "Тестовый поток"
         (Some "Автоматически созданный поток для тестирования") 1 later None]
      fk.
Proof.
  destruct r, fk; reflexivity.
Qed.

Lemma flows_of_snoc (db : Session) (f : Flow.t) (user_id : Z) :
  Flow.user_id f = user_id ->
  flows_of (with_flows db (flows db ++ [f])) user_id
  = flows_of db user_id ++ [f].
Proof.
  intro E. unfold flows_of. simpl. rewrite filter_app. simpl.
  apply Z.eqb_eq in E. now rewrite E.
Qed.

(** C1, as the code has it.  When [init_database] runs against a store
    with a User named "root", it looks at the Flows this User owns: if
    there is none and the generated flow_id is not taken, it adds exactly
    one default Flow owned by root (if that flow_id is taken, the store's
    refusal is swallowed and nothing changes); if there is one or more, it
    changes nothing.  So, unless the generated flow_id is taken, root owns
    max(1, prior count) Flows afterwards.  Users are never touched. *)
Theorem init_database_root_present
    (db : Session) (uuid4 : N) (now later : datetime) (root : User.t) :
  root_user db = Some root ->
  exists db',
    init_db.init_database db uuid4 now later = db'
    /\ users db' = users db
    /\ (flows_of db (User.id root) = [] ->
        unused db (uuid.new_flow_id uuid4) ->
        exists f,
          flows db' = flows db ++ [f]
          /\ Flow.user_id f = User.id root
          /\ Flow.flow_id f = uuid.new_flow_id uuid4
          /\ flows_of db' (User.id root) = [f])
    /\ (flows_of db (User.id root) = [] ->
        ~ unused db (uuid.new_flow_id uuid4) -> db' = db)
    /\ (flows_of db (User.id root) <> [] -> db' = db)
    /\ (flows_of db (User.id root) <> []
        \/ unused db (uuid.new_flow_id uuid4) ->
        List.length (flows_of db' (User.id root))
        = Nat.max 1 (List.length (flows_of db (User.id root)))).
Proof.
  intro Hroot. eexists. split; [reflexivity|].
  destruct (flows_of db (User.id root)) as [|g gs] eqn:Hflows.
  - assert (Hdec : unused db (uuid.new_flow_id uuid4)
                   \/ ~ unused db (uuid.new_flow_id uuid4)).
    { unfold unused.
      destruct (flow_crud.get_flow db (uuid.new_flow_id uuid4));
        [right; discriminate | now left]. }
    destruct Hdec as [Hfree | Htaken].
    + rewrite (init_database_root_gets_flow _ _ now later _ Hroot Hflows Hfree).
      split; [reflexivity|]. split; [|split; [tauto|split; [tauto|]]].
      * intros _ _. eexists. split; [reflexivity|].
        split; [reflexivity|]. split; [reflexivity|].
        rewrite flows_of_snoc; trivial. now rewrite Hflows.
      * intros _. rewrite flows_of_snoc; trivial. now rewrite Hflows.
    + rewrite (init_database_flow_id_taken _ _ now later _ Hroot Hflows Htaken).
      split; [reflexivity|]. repeat split; tauto.
  - rewrite (init_database_root_has_flows _ _ now later _ Hroot);
      [|rewrite Hflows; discriminate].
    split; [reflexivity|]. split; [discriminate|]. split; [discriminate|].
    split; [reflexivity|]. intros _. rewrite Hflows. reflexivity.
Qed.

(** C1, the claim as stated fails: in the sample store root owns no Flow;
    [lifespan] finds root and stops there, and [init_database], given a
    uuid whose flow_id another User's Flow already has, is refused by the
    store; either way root still owns no Flow. *)
Lemma bootstrap_root_without_flow_stays_without :
  root_user Sample.db = Some Sample.root
  /\ flows_of Sample.db (User.id Sample.root) = []
  /\ List.length
       (flows_of (main.lifespan Sample.db Sample.deadbeef_uuid 200 201)
                 (User.id Sample.root))
     <> Nat.max 1 (List.length (flows_of Sample.db (User.id Sample.root)))
  /\ List.length
       (flows_of (init_db.init_database Sample.db Sample.deadbeef_uuid 200 201)
                 (User.id Sample.root))
     <> Nat.max 1 (List.length (flows_of Sample.db (User.id Sample.root))).
Proof.
  split; [reflexivity|]. split; [reflexivity|].
  split; vm_compute; discriminate.
Qed.

Lemma root_users_nil (db : Session) : root_user db = None -> root_users db = [].
Proof. apply find_none_filter. Qed.

Lemma add_root_succeeds (db : Session) (email : option string)
    (is_active : bool) (now : datetime) :
  root_user db = None ->
  exists row,
    add_user db "root" email is_active now
    = (with_users db (users db ++ [row]), Ok row)
    /\ is_root row = true.
Proof.
  intro Hnone. unfold add_user.
  apply find_none_iff in Hnone. unfold is_root in Hnone. rewrite Hnone.
  eexists. split; reflexivity.
Qed.

Lemma bootstrap_root_users (r : routine) (db : Session) (uuid4 : N)
    (now later : datetime) :
  root_users (bootstrap r db uuid4 now later)
  = match root_user db with
    | Some _ => root_users db
    | None => [User.mk (next_pk User.id (users db)) "root"
                       (Some "root@krok-mvp.local") true now None]
    end.
Proof.
  destruct (root_user db) as [root|] eqn:Hroot.
  - destruct r; unfold bootstrap.
    + now rewrite (lifespan_root_present _ _ _ _ _ Hroot).
    + unfold init_db.init_database.
      change (find _ (users db)) with (root_user db). rewrite Hroot. cbv zeta.
      destruct (filter _ (flows db)); trivial.
      match goal with
      | |- context [add_flow ?d ?a ?b ?c ?e ?t] =>
          pose proof (proj1 (add_flow_frame d a b c e t)) as Hu;
          destruct (add_flow d a b c e t) as [db1 [f|e1]]
      end; unfold root_users; simpl in Hu; now rewrite Hu.
  - assert (Hstep : forall db1 : Session,
              users db1 = users db
                          ++ [User.mk (next_pk User.id (users db)) "root"
                                (Some "root@krok-mvp.local") true now None] ->
              root_users db1
              = [User.mk (next_pk User.id (users db)) "root"
                   (Some "root@krok-mvp.local") true now None]).
    { intros db1 E. unfold root_users. rewrite E, filter_app.
      change (filter is_root (users db)) with (root_users db).
      now rewrite (root_users_nil _ Hroot). }
    destruct (add_root_succeeds db (Some "root@krok-mvp.local") true now Hroot)
      as [row [Hadd _]].
    assert (Erow : row = User.mk (next_pk User.id (users db)) "root"
                       (Some "root@krok-mvp.local") true now None).
    { unfold add_user in Hadd.
      destruct (existsb _ (users db)); [discriminate|].
      now injection Hadd as _ <-. }
    subst row.
    destruct r; unfold bootstrap.
    + unfold main.lifespan, user_crud.create_user, flow_crud.create_flow.
      change (find _ (users db)) with (root_user db). rewrite Hroot. cbv zeta.
      cbn [UserCreate.username UserCreate.email UserCreate.is_active
           FlowCreate.flow_id FlowCreate.name FlowCreate.description
           FlowCreate.user_id].
      rewrite Hadd.
      match goal with
      | |- context [add_flow ?d ?a ?b ?c ?e ?t] =>
          pose proof (proj1 (add_flow_frame d a b c e t)) as Hu;
          destruct (add_flow d a b c e t) as [db2 [f|e2]]
      end; now apply Hstep.
    + unfold init_db.init_database.
      change (find _ (users db)) with (root_user db). rewrite Hroot. cbv zeta.
      cbn [UserCreate.username UserCreate.email UserCreate.is_active].
      rewrite Hadd.
      match goal with
      | |- context [add_flow ?d ?a ?b ?c ?e ?t] =>
          pose proof (proj1 (add_flow_frame d a b c e t)) as Hu;
          destruct (add_flow d a b c e t) as [db2 [f|e2]]
      end; now apply Hstep.
Qed.

Lemma bootstrap_at_most_one_root (db : Session)
    (runs : list (routine * N * datetime * datetime)) :
  (List.length (root_users db) <= 1)%nat ->
  (List.length (root_users (run_bootstraps db runs)) <= 1)%nat.
Proof.
  revert db.
  induction runs as [|[[[r uuid4] now] later] rest IH]; intros db H; trivial.
  simpl. apply IH. rewrite bootstrap_root_users.
  now destruct (root_user db).
Qed.

(** C2, as the code has it.  From the empty store either bootstrap makes
    one User "root" and one Flow owned by it, and a further run of either
    leaves that store as it is.  From a store with a User "root", a second
    run of [lifespan] changes nothing after the first, and a second run of
    [init_database] changes nothing after the first provided root owned a
    Flow before the first run or the flow_id generated in the first run
    was not taken.  However often the bootstraps run, a store with at most
    one User "root" never gets a second one. *)
Theorem bootstrap_idempotent :
  (forall r1 r2 fk uuid1 now1 later1 uuid2 now2 later2,
     exists root f,
       bootstrap r1 (empty_store fk) uuid1 now1 later1
       = mkSession [root] [f] fk
       /\ User.username root = "root"
       /\ Flow.user_id f = User.id root
       /\ bootstrap r2 (mkSession [root] [f] fk) uuid2 now2 later2
          = mkSession [root] [f] fk)
  /\ (forall db root uuid1 now1 later1 uuid2 now2 later2,
        root_user db = Some root ->
        main.lifespan (main.lifespan db uuid1 now1 later1) uuid2 now2 later2
        = main.lifespan db uuid1 now1 later1)
  /\ (forall db root uuid1 now1 later1 uuid2 now2 later2,
        root_user db = Some root ->
        flows_of db (User.id root) <> []
        \/ unused db (uuid.new_flow_id uuid1) ->
        init_db.init_database
          (init_db.init_database db uuid1 now1 later1) uuid2 now2 later2
        = init_db.init_database db uuid1 now1 later1)
  /\ (forall db runs,
        (List.length (root_users db) <= 1)%nat ->
        (List.length (root_users (run_bootstraps db runs)) <= 1)%nat).
Proof.
  split; [|split; [|split]].
  - intros r1 r2 fk uuid1 now1 later1 uuid2 now2 later2.
    rewrite bootstrap_from_empty.
    eexists. eexists. split; [reflexivity|].
    split; [reflexivity|]. split; [reflexivity|].
    destruct r2; unfold bootstrap.
    + now apply (lifespan_root_present _ _ _ _
                   (User.mk 1 "root" (Some "root@krok-mvp.local") true now1 None)).
    + apply (init_database_root_has_flows _ _ _ _
               (User.mk 1 "root" (Some "root@krok-mvp.local") true now1 None));
        [reflexivity | discriminate].
  - intros db root uuid1 now1 later1 uuid2 now2 later2 Hroot.
    rewrite (lifespan_root_present _ _ _ _ _ Hroot).
    now apply (lifespan_root_present _ _ _ _ root).
  - intros db root uuid1 now1 later1 uuid2 now2 later2 Hroot H.
    destruct (flows_of db (User.id root)) as [|g gs] eqn:Hflows.
    + destruct H as [H | Hfree]; [now contradiction H|].
      rewrite (init_database_root_gets_flow _ _ now1 later1 _ Hroot Hflows Hfree).
      apply (init_database_root_has_flows _ _ _ _ root); [exact Hroot|].
      rewrite flows_of_snoc; trivial. rewrite Hflows. discriminate.
    + assert (Hne : flows_of db (User.id root) <> [])
        by (rewrite Hflows; discriminate).
      rewrite (init_database_root_has_flows _ _ now1 later1 _ Hroot Hne).
      now apply (init_database_root_has_flows _ _ _ _ root).
  - intros db runs. now apply bootstrap_at_most_one_root.
Qed.

(** C2, the claim as stated fails for [init_database]: in the sample
    store root owns no Flow; a first run whose generated flow_id is taken
    changes nothing, and a second run with a free flow_id then adds a
    Flow, so the second run changes the Flow count. *)
Lemma init_database_second_run_adds_flow :
  root_user Sample.db = Some Sample.root
  /\ init_db.init_database Sample.db Sample.deadbeef_uuid 200 201 = Sample.db
  /\ List.length
       (flows (init_db.init_database
                 (init_db.init_database Sample.db Sample.deadbeef_uuid 200 201)
                 0 300 301))
     <> List.length
          (flows (init_db.init_database Sample.db Sample.deadbeef_uuid 200 201)).
Proof.
  split; [reflexivity|]. split; [vm_compute; reflexivity|].
  vm_compute. discriminate.
Qed.

(** * The statements at the sample stores *)

Lemma sample_flow_ids :
  uuid.new_flow_id Sample.deadbeef_uuid = "flow_deadbeef"
  /\ uuid.new_flow_id Sample.cafe_uuid = "flow_0badcafe".
Proof. split; vm_compute; reflexivity. Qed.

Lemma sample_integrity : integrity Sample.db.
Proof.
  split; simpl; repeat constructor; simpl; intuition discriminate.
Qed.

Lemma five_integrity : integrity Sample.five.
Proof.
  split; simpl; repeat constructor; simpl; intuition discriminate.
Qed.

(** At the sample store the list endpoint, asked for [user_id = 0],
    returns the Flow of User 2; the by-user query for 0 returns nothing. *)
Example get_flows_zero_at_sample :
  flows_api.get_flows Sample.db (Some 0) None None = [Sample.ann_flow]
  /\ flow_crud.get_flows_by_user Sample.db 0 None None = [].
Proof. split; reflexivity. Qed.

Example create_default_flow_at_sample :
  flow_crud.create_default_flow_for_user Sample.db 1 Sample.cafe_uuid 600
  = (with_flows Sample.db
       [Sample.ann_flow;
        Flow.mk 2 "flow_0badcafe" "Мой первый поток"
                (Some "Автоматически созданный поток") 1 600 None],
     Ok (Flow.mk 2 "flow_0badcafe" "Мой первый поток"
                 (Some "Автоматически созданный поток") 1 600 None)).
Proof. vm_compute. reflexivity. Qed.

(** The generated flow_id is not checked before the insert: with a uuid
    whose flow_id is taken the store refuses the row. *)
Example create_default_flow_collides_at_sample :
  flow_crud.create_default_flow_for_user Sample.db 1 Sample.deadbeef_uuid 600
  = (Sample.db,
     Raise (IntegrityError "UNIQUE constraint failed: flows.flow_id")).
Proof. vm_compute. reflexivity. Qed.

(** [lifespan] at the sample store: root is there, so nothing happens,
    although root owns no Flow. *)
Example lifespan_at_sample :
  main.lifespan Sample.db Sample.cafe_uuid 200 201 = Sample.db.
Proof. reflexivity. Qed.

(** C3, the claim as stated fails: an update of a stored Flow whose payload
    gives no field, or gives the name the Flow already has, returns the
    Flow with [updated_at] still null. *)
Lemma update_flow_without_change_keeps_updated_at :
  flow_crud.get_flow Sample.db "flow_deadbeef" = Some Sample.ann_flow
  /\ Flow.updated_at Sample.ann_flow = None
  /\ flow_crud.update_flow Sample.db "flow_deadbeef"
       (FlowUpdate.mk unset unset) 500
     = (Sample.db, Some Sample.ann_flow)
  /\ flow_crud.update_flow Sample.db "flow_deadbeef"
       (FlowUpdate.mk (given "Draft") unset) 500
     = (Sample.db, Some Sample.ann_flow).
Proof. repeat split. Qed.

Lemma init_database_root_present_witness :
  root_user Sample.db = Some Sample.root
  /\ exists db',
       init_db.init_database Sample.db Sample.cafe_uuid 200 201 = db'
       /\ users db' = users Sample.db
       /\ List.length (flows_of db' (User.id Sample.root)) = 1%nat.
Proof.
  split; [reflexivity|].
  destruct (init_database_root_present Sample.db Sample.cafe_uuid 200 201
              Sample.root eq_refl) as [db' [E [Hu [_ [_ [_ H]]]]]].
  exists db'. split; [exact E|]. split; [exact Hu|].
  rewrite H; [reflexivity|]. right. vm_compute. reflexivity.
Defined.

Lemma bootstrap_idempotent_witness :
  root_user Sample.db = Some Sample.root
  /\ unused Sample.db (uuid.new_flow_id Sample.cafe_uuid)
  /\ init_db.init_database
       (init_db.init_database Sample.db Sample.cafe_uuid 200 201)
       Sample.deadbeef_uuid 300 301
     = init_db.init_database Sample.db Sample.cafe_uuid 200 201.
Proof.
  assert (Hfree : unused Sample.db (uuid.new_flow_id Sample.cafe_uuid))
    by (vm_compute; reflexivity).
  split; [reflexivity|]. split; [exact Hfree|].
  apply (proj1 (proj2 (proj2 bootstrap_idempotent)) Sample.db Sample.root).
  - reflexivity.
  - right. exact Hfree.
Defined.

Lemma update_flow_partial_witness :
  integrity Sample.db
  /\ flow_crud.get_flow Sample.db "flow_deadbeef" = Some Sample.ann_flow
  /\ exists db' f',
       flow_crud.update_flow Sample.db "flow_deadbeef"
         (FlowUpdate.mk (given "Final") unset) 500 = (db', Some f')
       /\ Flow.name f' = "Final"
       /\ Flow.description f' = None
       /\ Flow.updated_at f' = Some 500.
Proof.
  split; [exact sample_integrity|]. split; [reflexivity|].
  destruct (proj1 (update_flow_partial Sample.db "flow_deadbeef"
                     (FlowUpdate.mk (given "Final") unset) 500
                     sample_integrity) Sample.ann_flow eq_refl)
    as [db' [f' [E [Hn [Hd [_ [_ [_ [_ [Hu _]]]]]]]]]].
  exists db', f'. repeat split; trivial.
Defined.

Lemma create_flow_duplicate_is_conflict_witness :
  In Sample.ann_flow (flows Sample.db)
  /\ exists e,
       flows_api.create_flow Sample.db
         (FlowCreate.mk "flow_deadbeef" "Again" None 1) 500
       = (Sample.db, Raise e)
       /\ Conflict e.
Proof.
  split; [now left|].
  apply (create_flow_duplicate_is_conflict Sample.db
           (FlowCreate.mk "flow_deadbeef" "Again" None 1) 500 Sample.ann_flow).
  - now left.
  - reflexivity.
Defined.

Lemma delete_flow_reports_deletion_witness :
  integrity Sample.db
  /\ (exists db',
        flow_crud.delete_flow Sample.db "flow_deadbeef" = (db', true)
        /\ flow_crud.get_flow db' "flow_deadbeef" = None
        /\ flows db' = [])
  /\ flow_crud.delete_flow Sample.db "flow_0badcafe" = (Sample.db, false).
Proof.
  split; [exact sample_integrity|]. split.
  - destruct (proj1 (delete_flow_reports_deletion Sample.db "flow_deadbeef"
                       sample_integrity) Sample.ann_flow eq_refl)
      as [db' [E [Hgone _]]].
    exists db'. split; [exact E|]. split; [exact Hgone|].
    injection E as <-. reflexivity.
  - apply (proj2 (delete_flow_reports_deletion Sample.db "flow_0badcafe"
                    sample_integrity)).
    reflexivity.
Defined.

Lemma get_all_flows_pages_witness :
  integrity Sample.five
  /\ flow_crud.get_all_flows Sample.five (Some 0) (Some 2)
     = [Sample.f1; Sample.f2]
  /\ flow_crud.get_all_flows Sample.five (Some 2) (Some 2)
     = [Sample.f3; Sample.f4].
Proof.
  split; [exact five_integrity|].
  destruct (get_all_flows_pages Sample.five Sample.f1 Sample.f2 Sample.f3
              Sample.f4 Sample.f5 five_integrity eq_refl) as [H1 [H2 _]].
  split; [exact H1 | exact H2].
Defined.

Lemma timestamps_of_entities_witness :
  integrity Sample.db
  /\ Flow.updated_at Sample.ann_flow = None
  /\ In Sample.ann_flow (flows (run_calls Sample.db Sample.quiet_history)).
Proof.
  split; [exact sample_integrity|]. split; [reflexivity|].
  apply (proj1 (proj2 (proj2 timestamps_of_entities))).
  - exact sample_integrity.
  - now left.
  - unfold Sample.quiet_history. repeat constructor; simpl; trivial.
    discriminate.
Defined.

Lemma update_flow_empty_is_noop_witness :
  flow_crud.get_flow Sample.db "flow_deadbeef" = Some Sample.ann_flow
  /\ flow_crud.update_flow Sample.db "flow_deadbeef"
       (FlowUpdate.mk unset unset) 777
     = (Sample.db, Some Sample.ann_flow).
Proof.
  split; [reflexivity|].
  apply (update_flow_empty_is_noop Sample.db "flow_deadbeef" 777 Sample.ann_flow).
  reflexivity.
Defined.

(** * Further properties of the repository *)

Lemma with_flows_same (db : Session) : with_flows db (flows db) = db.
Proof. now destruct db. Qed.

Lemma filter_keeps_all {A : Type} (p : A -> bool) (l : list A) :
  (forall x, In x l -> p x = true) -> filter p l = l.
Proof.
  intro H. apply forallb_filter_id, forallb_forall, H.
Qed.

Lemma get_flow_after_delete (db : Session) (flow_id : string) (f : Flow.t) :
  integrity db -> flow_crud.get_flow db flow_id = Some f ->
  flow_crud.get_flow (with_flows db (delete_row Flow.id f (flows db))) flow_id
  = None.
Proof.
  intros [Hpk Hfid _ _] Hget.
  destruct (get_flow_some _ _ _ Hget) as [Hf Ef].
  apply get_flow_none. simpl. intros g Hg Eg.
  apply in_delete_row in Hg. destruct Hg as [Hg Hne]. apply Hne. f_equal.
  apply (unique_key Flow.flow_id (flows db)); congruence.
Qed.

(** ** The Flow repository keeps the store well formed *)

(** X1. Each mutating function of the Flow repository keeps the store's
    uniqueness constraints and never touches the users table. *)
Theorem flow_crud_keeps_integrity (db : Session) :
  integrity db ->
  (forall flow now,
     integrity (fst (flow_crud.create_flow db flow now))
     /\ users (fst (flow_crud.create_flow db flow now)) = users db)
  /\ (forall user_id uuid4 now,
        integrity
          (fst (flow_crud.create_default_flow_for_user db user_id uuid4 now))
        /\ users
             (fst (flow_crud.create_default_flow_for_user db user_id uuid4 now))
           = users db)
  /\ (forall flow_id flow_update now,
        integrity (fst (flow_crud.update_flow db flow_id flow_update now))
        /\ users (fst (flow_crud.update_flow db flow_id flow_update now))
           = users db)
  /\ (forall flow_id,
        integrity (fst (flow_crud.delete_flow db flow_id))
        /\ users (fst (flow_crud.delete_flow db flow_id)) = users db).
Proof.
  intro Hint. split; [|split; [|split]].
  - intros flow now. split.
    + now apply add_flow_integrity.
    + apply add_flow_frame.
  - intros user_id uuid4 now. split.
    + now apply add_flow_integrity.
    + apply add_flow_frame.
  - intros flow_id flow_update now. split.
    + now apply update_flow_integrity.
    + apply update_flow_users.
  - intros flow_id. split.
    + now apply delete_flow_integrity.
    + apply delete_flow_users.
Qed.

Lemma flow_crud_keeps_integrity_witness :
  integrity Sample.db
  /\ integrity
       (fst (flow_crud.create_default_flow_for_user Sample.db 1
               Sample.cafe_uuid 600))
  /\ integrity (fst (flow_crud.delete_flow Sample.db "flow_deadbeef")).
Proof.
  split; [exact sample_integrity|]. split.
  - apply (proj1 (proj2 (flow_crud_keeps_integrity Sample.db sample_integrity))).
  - apply (proj2 (proj2 (proj2
             (flow_crud_keeps_integrity Sample.db sample_integrity)))).
Defined.

(** ** Creating, looking up and deleting *)

Lemma created_flow_found
    (db db' : Session) (flow : FlowCreate.t) (now : datetime) (f : Flow.t) :
  flow_crud.create_flow db flow now = (db', Ok f) ->
  flow_crud.get_flow db' (FlowCreate.flow_id flow) = Some f
  /\ (forall g, In g (flows db) -> Flow.id g < Flow.id f).
Proof.
  unfold flow_crud.create_flow. intro H.
  apply add_flow_ok in H. destruct H as [Ef [-> Hfree]].
  unfold flow_crud.get_flow in *. simpl flows. split.
  - rewrite (find_app_none _ _ _ Hfree). simpl.
    rewrite Ef at 1. simpl. now rewrite String.eqb_refl.
  - intros g Hg. rewrite Ef. simpl. now apply pk_lt_next.
Qed.





(** X4. Deleting the flow_id of a Flow that [create_flow] just returned
    gives back exactly the store from before the creation. *)
Theorem create_flow_then_delete_flow
    (db db' : Session) (flow : FlowCreate.t) (now : datetime) (f : Flow.t) :
  flow_crud.create_flow db flow now = (db', Ok f) ->
  flow_crud.delete_flow db' (FlowCreate.flow_id flow) = (db, true).
Proof.
  intro H.
  destruct (created_flow_found db db' flow now f H) as [Hget Hids].
  unfold flow_crud.create_flow in H. apply add_flow_ok in H.
  destruct H as [_ [-> _]].
  unfold flow_crud.delete_flow. rewrite Hget. simpl flows. f_equal.
  unfold delete_row. rewrite filter_app. simpl. rewrite Z.eqb_refl. simpl.
  rewrite app_nil_r, filter_keeps_all.
  - unfold with_flows. simpl. now destruct db.
  - intros g Hg. apply negb_true_iff, Z.eqb_neq.
    specialize (Hids g Hg). lia.
Qed.

Lemma create_flow_then_delete_flow_witness :
  exists db' f,
    flow_crud.create_flow Sample.db
      (FlowCreate.mk "flow_0badcafe" "Root" (Some "first") 1) 130
    = (db', Ok f)
    /\ flow_crud.delete_flow db' "flow_0badcafe" = (Sample.db, true).
Proof.
  eexists. eexists. split; [reflexivity|].
  apply (create_flow_then_delete_flow Sample.db _
           (FlowCreate.mk "flow_0badcafe" "Root" (Some "first") 1) 130 _
           eq_refl).
Defined.

(** X5. Deleting is idempotent: after [delete_flow] on a flow_id, a second
    [delete_flow] on it finds nothing, returns false and leaves the store
    as the first call left it. *)
Theorem delete_flow_twice (db : Session) (flow_id : string) :
  integrity db ->
  flow_crud.delete_flow (fst (flow_crud.delete_flow db flow_id)) flow_id
  = (fst (flow_crud.delete_flow db flow_id), false).
Proof.
  intro Hint. unfold flow_crud.delete_flow at 2 3.
  destruct (flow_crud.get_flow db flow_id) as [f|] eqn:Hget; simpl fst.
  - unfold flow_crud.delete_flow.
    now rewrite (get_flow_after_delete _ _ _ Hint Hget).
  - unfold flow_crud.delete_flow. now rewrite Hget.
Qed.

Lemma delete_flow_twice_witness :
  integrity Sample.db
  /\ flow_crud.delete_flow
       (fst (flow_crud.delete_flow Sample.db "flow_deadbeef")) "flow_deadbeef"
     = (mkSession [Sample.root; Sample.ann] [] true, false).
Proof.
  split; [exact sample_integrity|].
  exact (delete_flow_twice Sample.db "flow_deadbeef" sample_integrity).
Defined.

(** ** Updating twice *)

Lemma changes_after_update (flow_update : FlowUpdate.t) (f : Flow.t)
    (now : datetime) :
  changes flow_update
    (Flow.mk (Flow.id f) (Flow.flow_id f)
       match FlowUpdate.name flow_update with
       | given v => v
       | unset => Flow.name f
       end
       match FlowUpdate.description flow_update with
       | given v => v
       | unset => Flow.description f
       end
       (Flow.user_id f) (Flow.created_at f) (Some now))
  = false.
Proof.
  unfold changes. simpl.
  destruct (FlowUpdate.name flow_update) as [|n],
           (FlowUpdate.description flow_update) as [|d]; simpl;
    rewrite ?String.eqb_refl; simpl; trivial;
    apply negb_false_iff, option_eqb_eq; trivial; apply String.eqb_eq.
Qed.

(** X6. Updating is idempotent: a second [update_flow] with the same
    payload finds nothing to change, so it returns the same Flow and
    leaves the store (and [updated_at], whatever the clock says by then)
    as the first call left them. *)
Theorem update_flow_twice
    (db : Session) (flow_id : string) (flow_update : FlowUpdate.t)
    (now later : datetime) :
  integrity db ->
  flow_crud.update_flow
    (fst (flow_crud.update_flow db flow_id flow_update now))
    flow_id flow_update later
  = flow_crud.update_flow db flow_id flow_update now.
Proof.
  intro Hint.
  destruct (flow_crud.get_flow db flow_id) as [f|] eqn:Hget.
  - destruct (get_flow_some _ _ _ Hget) as [Hf Ef].
    destruct (changes flow_update f) eqn:Hc.
    + rewrite (update_flow_changed _ _ _ now _ Hget Hc). cbv zeta. simpl fst.
      apply update_flow_unchanged; [|apply changes_after_update].
      rewrite <- Ef.
      match goal with
      | |- context [replace_row Flow.id ?r _] =>
          apply (replace_flow_row db f r Hint Hf eq_refl eq_refl)
      end.
    + rewrite (update_flow_unchanged _ _ _ now _ Hget Hc). simpl fst.
      now apply update_flow_unchanged.
  - rewrite (update_flow_absent _ _ _ now Hget). simpl fst.
    now apply update_flow_absent.
Qed.

Lemma update_flow_twice_witness :
  integrity Sample.db
  /\ flow_crud.update_flow
       (fst (flow_crud.update_flow Sample.db "flow_deadbeef"
               (FlowUpdate.mk (given "Final") (given None)) 500))
       "flow_deadbeef" (FlowUpdate.mk (given "Final") (given None)) 900
     = flow_crud.update_flow Sample.db "flow_deadbeef"
         (FlowUpdate.mk (given "Final") (given None)) 500.
Proof.
  split; [exact sample_integrity|].
  exact (update_flow_twice Sample.db "flow_deadbeef"
           (FlowUpdate.mk (given "Final") (given None)) 500 900
           sample_integrity).
Defined.

(** ** Not found at the endpoints *)



(** ** Pages *)







(** ** Flows of one User *)



(** ** The default-flow endpoint *)

(** X10. The default-flow endpoint answers 404 and changes nothing when
    the User is missing.  When the User exists and the generated flow_id
    is free it adds one Flow owned by that User, whether or not the store
    enforces foreign keys; and because it looked the User up first, no
    error it raises is the store's foreign-key refusal. *)
Theorem create_default_flow_endpoint
    (db : Session) (user_id : Z) (uuid4 : N) (now : datetime) :
  (user_crud.get_user db user_id = None ->
   flows_api.create_default_flow_for_user db user_id uuid4 now
   = (db, Raise (HTTPException 404 "Пользователь не найден")))
  /\ (forall u, user_crud.get_user db user_id = Some u ->
      unused db (uuid.new_flow_id uuid4) ->
      exists f,
        flows_api.create_default_flow_for_user db user_id uuid4 now
        = (with_flows db (flows db ++ [f]), Ok f)
        /\ Flow.user_id f = user_id
        /\ Flow.flow_id f = uuid.new_flow_id uuid4)
  /\ (forall db' e,
        flows_api.create_default_flow_for_user db user_id uuid4 now
        = (db', Raise e) ->
        db' = db /\ e <> IntegrityError "FOREIGN KEY constraint failed").
Proof.
  unfold flows_api.create_default_flow_for_user,
    flow_crud.create_default_flow_for_user, flow_crud.create_flow.
  cbn [FlowCreate.flow_id FlowCreate.name FlowCreate.description
       FlowCreate.user_id].
  split; [|split].
  - now intros ->.
  - intros u Hget Hfree. rewrite Hget.
    destruct (get_user_some _ _ _ Hget) as [Hu Eu].
    rewrite (add_flow_succeeds _ _ _ _ _ _ u Hfree Hu Eu).
    eexists. split; [reflexivity|]. split; reflexivity.
  - intros db' e.
    destruct (user_crud.get_user db user_id) as [u|] eqn:Hget.
    + destruct (get_user_some _ _ _ Hget) as [Hu Eu].
      unfold add_flow.
      destruct (existsb _ (flows db)).
      * intros [= <- <-]. split; [reflexivity | discriminate].
      * assert (Hex : existsb (fun v => User.id v =? user_id) (users db) = true).
        { apply existsb_exists. exists u. split; trivial. now apply Z.eqb_eq. }
        rewrite Hex, andb_false_r. discriminate.
    + intros [= <- <-]. split; [reflexivity | discriminate].
Qed.

Lemma create_default_flow_endpoint_witness :
  user_crud.get_user Sample.db 1 = Some Sample.root
  /\ unused Sample.db (uuid.new_flow_id Sample.cafe_uuid)
  /\ (exists f,
        flows_api.create_default_flow_for_user Sample.db 1 Sample.cafe_uuid 600
        = (with_flows Sample.db (flows Sample.db ++ [f]), Ok f)
        /\ Flow.user_id f = 1)
  /\ flows_api.create_default_flow_for_user Sample.db 7 Sample.cafe_uuid 600
     = (Sample.db, Raise (HTTPException 404 "Пользователь не найден")).
Proof.
  assert (Hfree : unused Sample.db (uuid.new_flow_id Sample.cafe_uuid))
    by (vm_compute; reflexivity).
  split; [reflexivity|]. split; [exact Hfree|]. split.
  - destruct (proj1 (proj2 (create_default_flow_endpoint Sample.db 1
                              Sample.cafe_uuid 600))
                Sample.root eq_refl Hfree) as [f [E [Eu _]]].
    exists f. split; [exact E | exact Eu].
  - apply (proj1 (create_default_flow_endpoint Sample.db 7
                    Sample.cafe_uuid 600)).
    reflexivity.
Defined.

(** ** More on the bootstrap *)

Lemma root_found_after_insert (db : Session) (row : User.t) :
  root_user db = None -> is_root row = true ->
  root_user (with_users db (users db ++ [row])) = Some row.
Proof.
  intros Hnone Hrow. unfold root_user in *. simpl users.
  rewrite (find_app_none _ _ _ Hnone). simpl. now rewrite Hrow.
Qed.

(** What a bootstrap run does, by the state of the store: with a root
    that owns a Flow (or, for [lifespan], any root) nothing; otherwise it
    inserts root if missing and then tries one Flow for root. *)
Lemma bootstrap_cases (r : routine) (db : Session) (uuid4 : N)
    (now later : datetime) :
  (exists root, root_user db = Some root
                /\ bootstrap r db uuid4 now later = db)
  \/ (exists root, root_user db = Some root
                   /\ bootstrap r db uuid4 now later
                      = fst (add_flow db (uuid.new_flow_id uuid4)
                               "Тестовый поток"
                               (Some "Автоматически созданный поток для тестирования")
                               (User.id root) now))
  \/ (exists root, root_user db = None
                   /\ is_root root = true
                   /\ add_user db "root" (Some "root@krok-mvp.local") true now
                      = (with_users db (users db ++ [root]), Ok root)
                   /\ bootstrap r db uuid4 now later
                      = fst (add_flow (with_users db (users db ++ [root]))
                               (uuid.new_flow_id uuid4) "Тестовый поток"
                               (Some "Автоматически созданный поток для тестирования")
                               (User.id root) later)).
Proof.
  destruct (root_user db) as [root|] eqn:Hroot.
  - destruct r; unfold bootstrap.
    + left. exists root. split; trivial.
      now apply (lifespan_root_present _ _ _ _ root).
    + unfold init_db.init_database.
      change (find _ (users db)) with (root_user db). rewrite Hroot. cbv zeta.
      destruct (filter _ (flows db)).
      * right. left. exists root. split; trivial.
        now destruct (add_flow _ _ _ _ _ _) as [db1 [f|e]].
      * left. now exists root.
  - right. right.
    destruct (add_root_succeeds db (Some "root@krok-mvp.local") true now Hroot)
      as [row [Hadd Hrow]].
    exists row. split; trivial. split; trivial. split; trivial.
    destruct r; unfold bootstrap.
    + unfold main.lifespan, user_crud.create_user, flow_crud.create_flow.
      change (find _ (users db)) with (root_user db). rewrite Hroot. cbv zeta.
      cbn [UserCreate.username UserCreate.email UserCreate.is_active
           FlowCreate.flow_id FlowCreate.name FlowCreate.description
           FlowCreate.user_id].
      rewrite Hadd. now destruct (add_flow _ _ _ _ _ _) as [db2 [f|e]].
    + unfold init_db.init_database.
      change (find _ (users db)) with (root_user db). rewrite Hroot. cbv zeta.
      cbn [UserCreate.username UserCreate.email UserCreate.is_active].
      rewrite Hadd. now destruct (add_flow _ _ _ _ _ _) as [db2 [f|e]].
Qed.

(** X11. Either bootstrap keeps the store's uniqueness constraints. *)
Theorem bootstrap_keeps_integrity (r : routine) (db : Session) (uuid4 : N)
    (now later : datetime) :
  integrity db -> integrity (bootstrap r db uuid4 now later).
Proof.
  intro Hint.
  destruct (bootstrap_cases r db uuid4 now later)
    as [[root [_ ->]] | [[root [_ ->]] | [root [_ [_ [Hadd ->]]]]]]; trivial.
  - now apply add_flow_integrity.
  - apply add_flow_integrity.
    pose proof (add_user_integrity db "root" (Some "root@krok-mvp.local")
                  true now Hint) as H.
    now rewrite Hadd in H.
Qed.

Lemma bootstrap_keeps_integrity_witness :
  integrity Fixture.no_root
  /\ integrity (init_db.init_database Fixture.no_root Sample.cafe_uuid 200 201)
  /\ integrity (main.lifespan Fixture.no_root Sample.deadbeef_uuid 200 201).
Proof.
  assert (H : integrity Fixture.no_root).
  { split; simpl; repeat constructor; simpl; intuition discriminate. }
  split; [exact H|]. split.
  - exact (bootstrap_keeps_integrity InitDatabase Fixture.no_root
             Sample.cafe_uuid 200 201 H).
  - exact (bootstrap_keeps_integrity Lifespan Fixture.no_root
             Sample.deadbeef_uuid 200 201 H).
Defined.

(** X12. A bootstrap run only adds rows: it appends at most one User and
    at most one Flow and leaves every existing row where it was.  A User
    it adds is named "root" and is added only when the store had none; a
    Flow it adds carries the generated flow_id and belongs to the root
    that the store has afterwards.  After any run the store has a root. *)
Theorem bootstrap_only_adds (r : routine) (db : Session) (uuid4 : N)
    (now later : datetime) :
  exists new_users new_flows,
    users (bootstrap r db uuid4 now later) = users db ++ new_users
    /\ flows (bootstrap r db uuid4 now later) = flows db ++ new_flows
    /\ (List.length new_users <= 1)%nat
    /\ (List.length new_flows <= 1)%nat
    /\ (forall u, In u new_users ->
          User.username u = "root" /\ root_user db = None)
    /\ (forall f, In f new_flows ->
          Flow.flow_id f = uuid.new_flow_id uuid4
          /\ exists root,
               root_user (bootstrap r db uuid4 now later) = Some root
               /\ Flow.user_id f = User.id root)
    /\ root_user (bootstrap r db uuid4 now later) <> None.
Proof.
  destruct (bootstrap_cases r db uuid4 now later)
    as [[root [Hroot ->]] | [[root [Hroot ->]] | [root [Hnone [Hrow [_ ->]]]]]].
  - exists [], []. rewrite !app_nil_r.
    split; [reflexivity|]. split; [reflexivity|].
    split; [simpl; lia|]. split; [simpl; lia|].
    split; [intros u []|]. split; [intros f []|].
    rewrite Hroot. discriminate.
  - destruct (add_flow db _ _ _ _ now) as [db1 [f|e]] eqn:H; simpl fst.
    + apply add_flow_ok in H. destruct H as [Ef [-> _]].
      assert (Hsame : root_user (with_flows db (flows db ++ [f])) = Some root)
        by exact Hroot.
      exists [], [f]. rewrite app_nil_r.
      split; [reflexivity|]. split; [reflexivity|].
      split; [simpl; lia|]. split; [simpl; lia|].
      split; [intros u []|]. split.
      * intros g [<- | []]. split; [now rewrite Ef|].
        exists root. split; [exact Hsame | now rewrite Ef].
      * rewrite Hsame. discriminate.
    + apply add_flow_raise in H. subst db1.
      exists [], []. rewrite !app_nil_r.
      split; [reflexivity|]. split; [reflexivity|].
      split; [simpl; lia|]. split; [simpl; lia|].
      split; [intros u []|]. split; [intros f []|].
      rewrite Hroot. discriminate.
  - assert (Hname : User.username root = "root")
      by now apply String.eqb_eq.
    pose proof (root_found_after_insert db root Hnone Hrow) as Hfound.
    destruct (add_flow (with_users db (users db ++ [root])) _ _ _ _ later)
      as [db1 [f|e]] eqn:H; simpl fst.
    + apply add_flow_ok in H. destruct H as [Ef [-> _]].
      assert (Hsame : root_user
                        (with_flows (with_users db (users db ++ [root]))
                           (flows (with_users db (users db ++ [root])) ++ [f]))
                      = Some root) by exact Hfound.
      exists [root], [f].
      split; [reflexivity|]. split; [reflexivity|].
      split; [simpl; lia|]. split; [simpl; lia|].
      split; [now intros u [<- | []]|]. split.
      * intros g [<- | []]. split; [now rewrite Ef|].
        exists root. split; [exact Hsame | now rewrite Ef].
      * rewrite Hsame. discriminate.
    + apply add_flow_raise in H. subst db1.
      exists [root], []. rewrite app_nil_r.
      split; [reflexivity|]. split; [reflexivity|].
      split; [simpl; lia|]. split; [simpl; lia|].
      split; [now intros u [<- | []]|]. split; [intros f []|].
      rewrite Hfound. discriminate.
Qed.

(** X13. A bootstrap run is not atomic: on a store without root in which
    the generated flow_id is taken, root is committed and the Flow is
    refused, so the run ends with a root that got no Flow; no later
    [lifespan] run changes that store. *)
Theorem bootstrap_can_leave_root_without_flow
    (r : routine) (db : Session) (uuid4 : N) (now later : datetime) :
  root_user db = None ->
  ~ unused db (uuid.new_flow_id uuid4) ->
  exists root,
    bootstrap r db uuid4 now later = with_users db (users db ++ [root])
    /\ User.username root = "root"
    /\ (forall uuid' now' later',
          main.lifespan (with_users db (users db ++ [root])) uuid' now' later'
          = with_users db (users db ++ [root])).
Proof.
  intros Hnone Htaken.
  destruct (bootstrap_cases r db uuid4 now later)
    as [[root [Hroot _]] | [[root [Hroot _]] | [root [_ [Hrow [_ ->]]]]]];
    try congruence.
  exists root. split; [|split].
  - unfold unused in Htaken.
    destruct (flow_crud.get_flow db (uuid.new_flow_id uuid4)) as [g|] eqn:Hget;
      [|tauto].
    apply get_flow_some in Hget. destruct Hget as [Hg Eg].
    now rewrite (add_flow_duplicate (with_users db (users db ++ [root]))
                   _ _ _ _ _ g Hg Eg).
  - now apply String.eqb_eq.
  - intros uuid' now' later'.
    apply (lifespan_root_present _ _ _ _ root).
    now apply root_found_after_insert.
Qed.

Lemma bootstrap_can_leave_root_without_flow_witness :
  root_user Fixture.no_root = None
  /\ ~ unused Fixture.no_root (uuid.new_flow_id Sample.deadbeef_uuid)
  /\ exists root,
       main.lifespan Fixture.no_root Sample.deadbeef_uuid 200 201
       = with_users Fixture.no_root (users Fixture.no_root ++ [root])
       /\ User.username root = "root".
Proof.
  assert (Htaken : ~ unused Fixture.no_root
                     (uuid.new_flow_id Sample.deadbeef_uuid))
    by (vm_compute; discriminate).
  split; [reflexivity|]. split; [exact Htaken|].
  destruct (bootstrap_can_leave_root_without_flow Lifespan Fixture.no_root
              Sample.deadbeef_uuid 200 201 eq_refl Htaken)
    as [root [E [Hname _]]].
  exists root. split; [exact E | exact Hname].
Defined.

(** ** Which uuids give the same flow_id *)

Lemma string_app_nil_r (s : string) : (s ++ "")%string = s.
Proof. induction s as [|c s IH]; simpl; [trivial | now rewrite IH]. Qed.

Lemma string_app_assoc (s1 s2 s3 : string) :
  ((s1 ++ s2) ++ s3)%string = (s1 ++ (s2 ++ s3))%string.
Proof. induction s1 as [|c s1 IH]; simpl; [trivial | now rewrite IH]. Qed.

Lemma string_snoc_inj (s1 s2 : string) (c1 c2 : ascii) :
  (s1 ++ String c1 "")%string = (s2 ++ String c2 "")%string ->
  s1 = s2 /\ c1 = c2.
Proof.
  revert s2. induction s1 as [|a s1 IH]; intros [|b s2] H; simpl in H.
  - now injection H.
  - injection H as _ H. now destruct s2.
  - injection H as _ H. now destruct s1.
  - injection H as -> H. destruct (IH _ H) as [-> ->]. now split.
Qed.

Lemma string_app_inv_head (p s1 s2 : string) :
  (p ++ s1)%string = (p ++ s2)%string -> s1 = s2.
Proof.
  induction p as [|c p IH]; simpl; trivial.
  intro H. injection H as H. now apply IH.
Qed.

Lemma substring_prefix_app (s1 s2 : string) :
  substring 0 (String.length s1) (s1 ++ s2) = s1.
Proof.
  induction s1 as [|c s1 IH]; simpl.
  - now destruct s2.
  - now rewrite IH.
Qed.

Lemma hexdigit_inj (a b : N) :
  (a < 16)%N -> (b < 16)%N -> uuid.hexdigit a = uuid.hexdigit b -> a = b.
Proof.
  intros Ha Hb.
  assert (Hcases : forall d, (d < 16)%N ->
            In d [0; 1; 2; 3; 4; 5; 6; 7; 8; 9; 10; 11; 12; 13; 14; 15]%N).
  { intros d Hd. simpl.
    destruct d as [|p]; [now left|].
    do 4 (destruct p as [p|p|]; try lia); tauto. }
  pose proof (Hcases a Ha) as Ia. pose proof (Hcases b Hb) as Ib.
  simpl in Ia, Ib.
  repeat (destruct Ia as [<- | Ia]; [|]);
    try contradiction;
    repeat (destruct Ib as [<- | Ib]; [|]);
    try contradiction; simpl; intro E; try reflexivity; discriminate E.
Qed.

Lemma hex_digits_split (a b : nat) (n : N) :
  uuid.hex_digits (a + b) n
  = (uuid.hex_digits a (n / 16 ^ N.of_nat b) ++ uuid.hex_digits b n)%string.
Proof.
  revert n. induction b as [|b IH]; intro n.
  - rewrite Nat.add_0_r. simpl. now rewrite N.div_1_r, string_app_nil_r.
  - rewrite Nat.add_succ_r. cbn [uuid.hex_digits].
    rewrite IH, string_app_assoc. do 2 f_equal.
    rewrite Nat2N.inj_succ, N.pow_succ_r', N.Div0.div_div. reflexivity.
Qed.

Lemma hex_digits_eq (width : nat) (n m : N) :
  uuid.hex_digits width n = uuid.hex_digits width m
  <-> (n mod 16 ^ N.of_nat width = m mod 16 ^ N.of_nat width)%N.
Proof.
  revert n m. induction width as [|w IH]; intros n m.
  - simpl. rewrite !N.mod_1_r. tauto.
  - cbn [uuid.hex_digits].
    rewrite Nat2N.inj_succ, N.pow_succ_r', !N.Div0.mod_mul_r.
    pose proof (N.mod_upper_bound n 16 ltac:(lia)) as Hn.
    pose proof (N.mod_upper_bound m 16 ltac:(lia)) as Hm.
    specialize (IH (n / 16)%N (m / 16)%N).
    split.
    + intro H. apply string_snoc_inj in H. destruct H as [Hs Hc].
      apply IH in Hs. apply hexdigit_inj in Hc; trivial.
      now rewrite Hs, Hc.
    + intro H.
      assert (Hsplit : (n mod 16 = m mod 16
                        /\ (n / 16) mod 16 ^ N.of_nat w
                           = (m / 16) mod 16 ^ N.of_nat w)%N).
      { revert H Hn Hm.
        generalize (n mod 16)%N (m mod 16)%N
                   ((n / 16) mod 16 ^ N.of_nat w)%N
                   ((m / 16) mod 16 ^ N.of_nat w)%N.
        intros a b x y H Ha Hb. lia. }
      destruct Hsplit as [Hd Hr].
      apply IH in Hr. now rewrite Hr, Hd.
Qed.

(** X14. Two uuids give the same generated flow_id exactly when the top
    32 bits of their 128-bit values agree: the flow_id keeps those bits
    and drops the other 96. *)
Theorem new_flow_id_collision (u1 u2 : N) :
  uuid.new_flow_id u1 = uuid.new_flow_id u2
  <-> ((u1 / 2 ^ 96) mod 2 ^ 32 = (u2 / 2 ^ 96) mod 2 ^ 32)%N.
Proof.
  assert (Hid : forall u,
            uuid.new_flow_id u
            = ("flow_" ++ uuid.hex_digits 8 (u / 16 ^ N.of_nat 24))%string).
  { intro u. unfold uuid.new_flow_id, uuid.hex.
    change 32%nat with (8 + 24)%nat. rewrite hex_digits_split.
    rewrite <- (hex_digits_length 8 (u / 16 ^ N.of_nat 24)) at 1.
    now rewrite substring_prefix_app. }
  rewrite !Hid.
  change (16 ^ N.of_nat 24)%N with (2 ^ 96)%N.
  change (2 ^ 32)%N with (16 ^ N.of_nat 8)%N.
  rewrite <- hex_digits_eq. split.
  - apply string_app_inv_head.
  - now intros ->.
Qed.

(** ** What no call changes *)

Lemma run_call_keeps_identity (db : Session) (c : call) (now : datetime)
    (f : Flow.t) :
  integrity db -> In f (flows db) -> keeps_flow f c ->
  exists f',
    In f' (flows (run_call db c now))
    /\ Flow.id f' = Flow.id f
    /\ Flow.flow_id f' = Flow.flow_id f
    /\ Flow.user_id f' = Flow.user_id f
    /\ Flow.created_at f' = Flow.created_at f.
Proof.
  intros Hint Hf [Hflow Hkeep].
  destruct c as [fc|uid u4|fid fu|fid|uc|uid uu]; try contradiction;
    unfold run_call.
  - exists f. split; [now apply add_flow_frame | tauto].
  - exists f. split; [now apply add_flow_frame | tauto].
  - destruct (flow_crud.get_flow db fid) as [g|] eqn:Hget;
      [|rewrite update_flow_absent; trivial; exists f; tauto].
    destruct (changes fu g) eqn:Hc;
      [|rewrite (update_flow_unchanged _ _ _ now _ Hget Hc); exists f; tauto].
    rewrite (update_flow_changed _ _ _ now _ Hget Hc). cbv zeta.
    destruct (get_flow_some _ _ _ Hget) as [Hg Eg].
    match goal with
    | |- context [replace_row Flow.id ?row _] =>
        destruct (replace_flow_row db g row Hint Hg eq_refl eq_refl)
          as [_ [Hstored [Hkeeps _]]];
        destruct (String.eqb_spec fid (Flow.flow_id f)) as [E|E];
        [exists row | exists f]
    end.
    + assert (g = f).
      { assert (Hsome : flow_crud.get_flow db (Flow.flow_id f) = Some f)
          by (apply get_flow_stored; trivial; apply Hint).
        congruence. }
      subst g. split; [|simpl; tauto].
      apply get_flow_some in Hstored. apply Hstored.
    + split; [|tauto]. simpl fst. apply Hkeeps; trivial.
      intros ->. now apply E.
  - unfold flow_crud.delete_flow.
    destruct (flow_crud.get_flow db fid) as [g|] eqn:Hget;
      [|exists f; tauto].
    destruct (get_flow_some _ _ _ Hget) as [Hg Eg].
    exists f. split; [|tauto]. simpl. apply in_delete_row. split; trivial.
    intro E. apply Hkeep. f_equal. rewrite <- Eg. f_equal.
    symmetry. apply (unique_key Flow.id (flows db)); trivial. apply Hint.
Qed.

(** X15. Through any history of Flow repository calls that does not
    delete it, a Flow keeps its id, flow_id, owner and [created_at]: only
    its name, description and [updated_at] can change. *)
Theorem flow_identity_is_stable
    (db : Session) (history : list (call * datetime)) (f : Flow.t) :
  integrity db -> In f (flows db) ->
  Forall (fun cn => keeps_flow f (fst cn)) history ->
  exists f',
    flow_crud.get_flow (run_calls db history) (Flow.flow_id f) = Some f'
    /\ Flow.id f' = Flow.id f
    /\ Flow.flow_id f' = Flow.flow_id f
    /\ Flow.user_id f' = Flow.user_id f
    /\ Flow.created_at f' = Flow.created_at f.
Proof.
  revert db f. induction history as [|[c now] rest IH]; intros db f Hint Hf Hq.
  - exists f. split; [|tauto]. simpl.
    apply get_flow_stored; trivial. apply Hint.
  - inversion Hq as [|? ? Hc Hrest]; subst. simpl in Hc. simpl run_calls.
    destruct (run_call_keeps_identity db c now f Hint Hf Hc)
      as [f1 [Hf1 [Eid [Efid [Euid Ecr]]]]].
    destruct (IH (run_call db c now) f1) as [f' [Hget H]].
    + now apply run_call_integrity.
    + exact Hf1.
    + unfold keeps_flow in *. rewrite Efid. exact Hrest.
    + exists f'. rewrite <- Efid. split; [exact Hget|].
      destruct H as [H1 [H2 [H3 H4]]]. repeat split; congruence.
Qed.

Lemma flow_identity_is_stable_witness :
  integrity Sample.db
  /\ exists f',
       flow_crud.get_flow
         (run_calls Sample.db
            [ (call_update_flow "flow_deadbeef"
                 (FlowUpdate.mk (given "Final") unset), 500);
              (call_create_default_flow_for_user 1 Sample.cafe_uuid, 501);
              (call_delete_flow "flow_0badcafe", 502) ])
         "flow_deadbeef" = Some f'
       /\ Flow.id f' = 1
       /\ Flow.created_at f' = 120.
Proof.
  split; [exact sample_integrity|].
  destruct (flow_identity_is_stable Sample.db
              [ (call_update_flow "flow_deadbeef"
                   (FlowUpdate.mk (given "Final") unset), 500);
                (call_create_default_flow_for_user 1 Sample.cafe_uuid, 501);
                (call_delete_flow "flow_0badcafe", 502) ]
              Sample.ann_flow sample_integrity (or_introl eq_refl))
    as [f' [Hget [Eid [_ [_ Ecr]]]]].
  - repeat constructor; simpl; discriminate.
  - exists f'. split; [exact Hget|]. split; [exact Eid | exact Ecr].
Defined.

(** ** Lookup by flow_id *)

(** X16. While flow_ids are unique, [get_flow] finds exactly the stored
    Flows: it returns [f] for a flow_id if and only if [f] is a row of the
    table with that flow_id. *)
Theorem get_flow_finds_stored (db : Session) (flow_id : string) (f : Flow.t) :
  integrity db ->
  flow_crud.get_flow db flow_id = Some f
  <-> In f (flows db) /\ Flow.flow_id f = flow_id.
Proof.
  intro Hint. split.
  - apply get_flow_some.
  - intros [Hf <-]. apply get_flow_stored; trivial. apply Hint.
Qed.

Lemma get_flow_finds_stored_witness :
  integrity Fixture.two_flows
  /\ flow_crud.get_flow Fixture.two_flows "flow_0badcafe"
     = Some Fixture.root_flow.
Proof.
  assert (H : integrity Fixture.two_flows).
  { split; simpl; repeat constructor; simpl; intuition discriminate. }
  split; [exact H|].
  apply (proj2 (get_flow_finds_stored Fixture.two_flows "flow_0badcafe"
                  Fixture.root_flow H)).
  split; [right; now left | reflexivity].
Defined.

(** ** Creating twice through the endpoint *)

(** X17. Once the create endpoint has stored a Flow, any further creation
    request with that flow_id, whatever its other fields, ends in Conflict
    and leaves the store as the first request left it. *)
Theorem create_flow_endpoint_twice
    (db db' : Session) (flow again : FlowCreate.t) (now later : datetime)
    (f : Flow.t) :
  flows_api.create_flow db flow now = (db', Ok f) ->
  FlowCreate.flow_id again = FlowCreate.flow_id flow ->
  exists e,
    flows_api.create_flow db' again later = (db', Raise e) /\ Conflict e.
Proof.
  intros H E. unfold flows_api.create_flow in H.
  destruct (flow_crud.get_flow db (FlowCreate.flow_id flow)); [discriminate|].
  apply created_flow_found in H. destruct H as [Hget _].
  unfold flows_api.create_flow. rewrite E, Hget.
  eexists. split; reflexivity.
Qed.

Lemma create_flow_endpoint_twice_witness :
  exists db' f e,
    flows_api.create_flow Sample.db
      (FlowCreate.mk "flow_0badcafe" "Root" None 1) 130 = (db', Ok f)
    /\ flows_api.create_flow db'
         (FlowCreate.mk "flow_0badcafe" "Other" (Some "again") 2) 131
       = (db', Raise e)
    /\ Conflict e.
Proof.
  destruct (create_flow_endpoint_twice Sample.db _
              (FlowCreate.mk "flow_0badcafe" "Root" None 1)
              (FlowCreate.mk "flow_0badcafe" "Other" (Some "again") 2)
              130 131 _ eq_refl eq_refl) as [e [H Hc]].
  eexists. eexists. exists e. split; [reflexivity|]. split; [exact H | exact Hc].
Defined.
